(** * Verification of the tanrenai training sidecar

    Shallow embedding of [src/server/sidecar/main.py] (the FastAPI sidecar:
    admission, run registry, status polling, convert stage) and of
    [src/gpu/sidecar/train.py] (dataset transform, metrics callback,
    [run_training]).

    Modelling conventions:
    - Python [float]s are modelled as exact rationals [Q]; the properties
      below only use their order and exact values such as [1/10] and [1].
    - Python strings are Rocq [string]s (byte strings).
    - A Python exception is an [exn]: either a subclass of [Exception]
      ([Exc]) or a [BaseException] outside it ([BaseExc], e.g. SystemExit).
    - Fallible code returns a [Result]; the environment (clock, filesystem,
      collaborator libraries, subprocesses, the UUID generator) is an
      explicit argument. *)

From Stdlib Require Import QArith Qround Qabs ZArith Lia Bool.
From Stdlib Require Import String Ascii.
From stdpp Require Import base gmap strings list.

Set Warnings "-register-all".
Open Scope string_scope.

(* ------------------------------------------------------------------ *)
(** ** Python runtime fragments *)

(** Exceptions: [Exc cls msg] is an instance of a subclass of [Exception]
    whose [str()] is [msg]; [BaseExc] is a [BaseException] that is not an
    [Exception] ([SystemExit], [KeyboardInterrupt], [GeneratorExit]). *)
Inductive exn :=
| Exc (cls : string) (msg : string)
| BaseExc (cls : string) (msg : string).

(** [str(e)] *)
Definition exn_str (e : exn) : string :=
  match e with Exc _ m => m | BaseExc _ m => m end.


(** Computations that may raise. *)
Inductive Result (A : Type) :=
| Ok (a : A)
| Raise (e : exn).
Arguments Ok {A} a.
Arguments Raise {A} e.

Definition bind {A B} (r : Result A) (k : A -> Result B) : Result B :=
  match r with Ok a => k a | Raise e => Raise e end.

Notation "'let!' x ':=' c 'in' k" := (bind c (fun x => k))
  (at level 200, x name, c at level 100, k at level 200).

(** Values stored in the [metrics] dictionaries. *)
Inductive mval :=
| MQ (q : Q)          (* float *)
| MZ (z : Z)          (* int *)
| MStr (s : string).  (* str *)

(** A Python dict literal with string keys, in insertion order. *)
Definition metrics := list (string * mval).

(** [d.get(k)] on a metrics dict. *)
Fixpoint mget (d : metrics) (k : string) : option mval :=
  match d with
  | [] => None
  | (k', v) :: d' => if String.eqb k k' then Some v else mget d' k
  end.

(** HTTP answers of the FastAPI handlers: a body, or an [HTTPException]
    with its status code and detail. *)
Inductive http (A : Type) :=
| HOk (body : A)
| HErr (code : Z) (detail : string).
Arguments HOk {A} body.
Arguments HErr {A} code detail.

(** ASCII lower-casing: [str.lower] on strings of ASCII characters.
    Python also lower-cases non-ASCII letters, which this leaves as they
    are; the quantization names used below are ASCII. *)
Definition lower_ascii (c : ascii) : ascii :=
  let n := nat_of_ascii c in
  if (65 <=? n)%nat && (n <=? 90)%nat then ascii_of_nat (n + 32) else c.

Fixpoint str_lower (s : string) : string :=
  match s with
  | EmptyString => EmptyString
  | String c s' => String (lower_ascii c) (str_lower s')
  end.

(** Hexadecimal digits, used by [str(uuid.uuid4())]. *)
Definition hex_digit (n : Z) : ascii :=
  if (n <? 10)%Z then ascii_of_nat (48 + Z.to_nat n)
  else ascii_of_nat (87 + Z.to_nat n).

(** [width] lower-case hex digits of [n], most significant first. *)
Fixpoint hex_width (width : nat) (n : Z) : string :=
  match width with
  | O => EmptyString
  | S w => hex_width w (Z.shiftr n 4) ++ String (hex_digit (Z.land n 15)) EmptyString
  end.

(** [str(uuid.UUID(int=u))]: 8-4-4-4-12 hex groups of the 128-bit value. *)
Definition uuid_str (u : Z) : string :=
  hex_width 8 (Z.shiftr u 96) ++ "-" ++
  hex_width 4 (Z.land (Z.shiftr u 80) 65535) ++ "-" ++
  hex_width 4 (Z.land (Z.shiftr u 64) 65535) ++ "-" ++
  hex_width 4 (Z.land (Z.shiftr u 48) 65535) ++ "-" ++
  hex_width 12 (Z.land u (Z.ones 48)).

(** [str(uuid.uuid4())[:12]] for the random value [u]. *)
Definition gen_run_id (u : Z) : string := substring 0 12 (uuid_str u).

(** The double-quote character, and a string between double quotes. *)
Definition dq : string := String (ascii_of_nat 34) EmptyString.

Definition quoted (s : string) : string := dq ++ s ++ dq.

(** Python truthiness of an [Optional[str]]: [x or y]. *)
Definition opt_str_or (x : option string) (y : string) : string :=
  match x with
  | Some s => if String.eqb s "" then y else s
  | None => y
  end.

(** Decimal rendering of a non-negative integer ([str(n)]). *)
Fixpoint dec_digits (fuel : nat) (n : Z) (acc : string) : string :=
  match fuel with
  | O => acc
  | S f =>
      let acc' := String (ascii_of_nat (48 + Z.to_nat (n mod 10))) acc in
      if (n <? 10)%Z then acc' else dec_digits f (n / 10) acc'
  end.

Definition str_Z (n : Z) : string :=
  if (n <? 0)%Z
  then "-" ++ dec_digits (S (Z.to_nat (Z.log2 (- n)))) (- n) ""
  else dec_digits (S (Z.to_nat (Z.log2 n))) n "".

(** Rounding to the nearest integer, ties to even: the rounding of
    [round(x, 4)] and of the [:.1f] format. *)
Definition round_half_even (q : Q) : Z :=
  let f := Qfloor q in
  match Qcompare (q - inject_Z f) (1 # 2) with
  | Lt => f
  | Gt => (f + 1)%Z
  | Eq => if Z.even f then f else (f + 1)%Z
  end.

(** [round(x, 4)] on a float. *)
Definition round4 (q : Q) : Q := Qmake (round_half_even (q * inject_Z 10000)) 10000.

(** [round(v, 4)] on a Python number: ints are returned unchanged. *)
Definition py_round4 (v : mval) : mval :=
  match v with MQ q => MQ (round4 q) | other => other end.

(** [f"{x:.1f}"] *)
Definition format_1f (q : Q) : string :=
  let neg := negb (Qle_bool 0 q) in
  let n := round_half_even (Qabs q * inject_Z 10) in
  (if neg then "-" else "") ++ str_Z (n / 10) ++ "." ++ str_Z (n mod 10).

(** [a / b] on Python ints: true division, [ZeroDivisionError] on zero. *)
Definition py_truediv (a b : Z) : Result mval :=
  if (b =? 0)%Z then Raise (Exc "ZeroDivisionError" "division by zero")
  else Ok (MQ (inject_Z a / inject_Z b)).

(** [os.path.join(a, b)] for a relative [b]. *)
Definition path_join (a b : string) : string :=
  if String.eqb a "" then b
  else if String.eqb (substring (String.length a - 1) 1 a) "/" then a ++ b
  else a ++ "/" ++ b.

(* ------------------------------------------------------------------ *)
(** ** JSON ([json.loads]) *)

Inductive json :=
| JNull
| JBool (b : bool)
| JNum (lit : string)               (* the number literal as written *)
| JStr (s : string)
| JArr (l : list json)
| JObj (kvs : list (string * json)).

Module Json.

Definition is_ws (c : ascii) : bool :=
  let n := nat_of_ascii c in
  (n =? 32)%nat || (n =? 9)%nat || (n =? 10)%nat || (n =? 13)%nat.

Fixpoint skip_ws (s : string) : string :=
  match s with
  | String c s' => if is_ws c then skip_ws s' else s
  | EmptyString => EmptyString
  end.

Definition is_digit (c : ascii) : bool :=
  let n := nat_of_ascii c in (48 <=? n)%nat && (n <=? 57)%nat.

Definition hex_val (c : ascii) : option Z :=
  let n := Z.of_nat (nat_of_ascii c) in
  if (48 <=? n)%Z && (n <=? 57)%Z then Some (n - 48)%Z
  else if (97 <=? n)%Z && (n <=? 102)%Z then Some (n - 87)%Z
  else if (65 <=? n)%Z && (n <=? 70)%Z then Some (n - 55)%Z
  else None.

(** UTF-8 bytes of a code point below 0x10000. *)
Definition utf8_bmp (cp : Z) : string :=
  let b (z : Z) := String (ascii_of_nat (Z.to_nat z)) EmptyString in
  if (cp <? 128)%Z then b cp
  else if (cp <? 2048)%Z then b (192 + cp / 64)%Z ++ b (128 + cp mod 64)%Z
  else b (224 + cp / 4096)%Z ++ b (128 + (cp / 64) mod 64)%Z ++ b (128 + cp mod 64)%Z.

Definition decode_error {A} : Result A := Raise (Exc "JSONDecodeError" "Expecting value").

(** The longest prefix of digits, and the rest. *)
Fixpoint span_digits (s : string) : string * string :=
  match s with
  | String c s' =>
      if is_digit c then let (d, r) := span_digits s' in (String c d, r) else ("", s)
  | EmptyString => ("", "")
  end.

(** A string literal body after the opening quote; returns the decoded
    string and the rest after the closing quote. *)
Fixpoint parse_str (fuel : nat) (s : string) (acc : string) : Result (string * string) :=
  match fuel with
  | O => decode_error
  | S f =>
  match s with
  | EmptyString => decode_error
  | String c s' =>
      let n := nat_of_ascii c in
      if (n =? 34)%nat then Ok (acc, s')
      else if (n <? 32)%nat then decode_error
      else if (n =? 92)%nat then
        match s' with
        | String e s'' =>
            let en := nat_of_ascii e in
            let one (x : nat) := parse_str f s'' (acc ++ String (ascii_of_nat x) EmptyString) in
            if (en =? 34)%nat then one 34 else if (en =? 92)%nat then one 92
            else if (en =? 47)%nat then one 47 else if (en =? 98)%nat then one 8
            else if (en =? 102)%nat then one 12 else if (en =? 110)%nat then one 10
            else if (en =? 114)%nat then one 13 else if (en =? 116)%nat then one 9
            else if (en =? 117)%nat then
              match s'' with
              | String h1 (String h2 (String h3 (String h4 rest))) =>
                  match hex_val h1, hex_val h2, hex_val h3, hex_val h4 with
                  | Some a, Some b, Some c, Some d =>
                      parse_str f rest (acc ++ utf8_bmp (a * 4096 + b * 256 + c * 16 + d)%Z)
                  | _, _, _, _ => decode_error
                  end
              | _ => decode_error
              end
            else decode_error
        | EmptyString => decode_error
        end
      else parse_str f s' (acc ++ String c EmptyString)
  end
  end.

(** A number literal: [-? (0 | [1-9][0-9]* ) (. [0-9]+)? ([eE] [+-]? [0-9]+)?]. *)
Definition parse_num (s : string) : Result (string * string) :=
  let (sign, s1) := match s with
                    | String "-"%char r => ("-", r)
                    | _ => ("", s)
                    end in
  let (ip, s2) := span_digits s1 in
  if String.eqb ip "" then decode_error
  else if (1 <? String.length ip)%nat && String.eqb (substring 0 1 ip) "0" then
    (* a leading zero ends the integer part *)
    Ok (sign ++ "0", substring 1 (String.length s1 - 1) s1)
  else
  let (fr, s3) := match s2 with
                  | String "."%char r =>
                      let (d, r') := span_digits r in
                      if String.eqb d "" then ("", s2) else ("." ++ d, r')
                  | _ => ("", s2)
                  end in
  let (ex, s4) := match s3 with
                  | String e r =>
                      if (Ascii.eqb e "e"%char || Ascii.eqb e "E"%char) then
                        let (sg, r1) := match r with
                                        | String "+"%char r' => ("+", r')
                                        | String "-"%char r' => ("-", r')
                                        | _ => ("", r)
                                        end in
                        let (d, r2) := span_digits r1 in
                        if String.eqb d "" then ("", s3)
                        else (String e EmptyString ++ sg ++ d, r2)
                      else ("", s3)
                  | EmptyString => ("", s3)
                  end in
  Ok (sign ++ ip ++ fr ++ ex, s4).

Fixpoint parse_value (fuel : nat) (s : string) : Result (json * string) :=
  match fuel with
  | O => decode_error
  | S f =>
      let s := skip_ws s in
      match s with
      | String "{"%char r => parse_obj_first f r
      | String "["%char r => parse_arr_first f r
      | String "034"%char r =>
          match parse_str (S (String.length r)) r "" with
          | Ok (str, r') => Ok (JStr str, r')
          | Raise e => Raise e
          end
      | _ =>
          if String.prefix "null" s then Ok (JNull, substring 4 (String.length s - 4) s)
          else if String.prefix "true" s then Ok (JBool true, substring 4 (String.length s - 4) s)
          else if String.prefix "false" s then Ok (JBool false, substring 5 (String.length s - 5) s)
          else if String.prefix "NaN" s then Ok (JNum "NaN", substring 3 (String.length s - 3) s)
          else if String.prefix "Infinity" s then Ok (JNum "Infinity", substring 8 (String.length s - 8) s)
          else if String.prefix "-Infinity" s then Ok (JNum "-Infinity", substring 9 (String.length s - 9) s)
          else match parse_num s with
               | Ok (lit, r) => Ok (JNum lit, r)
               | Raise e => Raise e
               end
      end
  end
with parse_arr_first (fuel : nat) (s : string) : Result (json * string) :=
  match fuel with
  | O => decode_error
  | S f =>
      match skip_ws s with
      | String "]"%char r => Ok (JArr [], r)
      | s' => parse_arr_items f s' []
      end
  end
with parse_arr_items (fuel : nat) (s : string) (acc : list json) : Result (json * string) :=
  match fuel with
  | O => decode_error
  | S f =>
      match parse_value f s with
      | Raise e => Raise e
      | Ok (v, r) =>
          match skip_ws r with
          | String "]"%char r' => Ok (JArr (rev (v :: acc)), r')
          | String ","%char r' => parse_arr_items f r' (v :: acc)
          | _ => Raise (Exc "JSONDecodeError" "Expecting ',' delimiter")
          end
      end
  end
with parse_obj_first (fuel : nat) (s : string) : Result (json * string) :=
  match fuel with
  | O => decode_error
  | S f =>
      match skip_ws s with
      | String "}"%char r => Ok (JObj [], r)
      | s' => parse_obj_items f s' []
      end
  end
with parse_obj_items (fuel : nat) (s : string) (acc : list (string * json)) : Result (json * string) :=
  match fuel with
  | O => decode_error
  | S f =>
      match skip_ws s with
      | String "034"%char r =>
          match parse_str (S (String.length r)) r "" with
          | Raise e => Raise e
          | Ok (k, r1) =>
              match skip_ws r1 with
              | String ":"%char r2 =>
                  match parse_value f r2 with
                  | Raise e => Raise e
                  | Ok (v, r3) =>
                      match skip_ws r3 with
                      | String "}"%char r4 => Ok (JObj (rev ((k, v) :: acc)), r4)
                      | String ","%char r4 => parse_obj_items f r4 ((k, v) :: acc)
                      | _ => Raise (Exc "JSONDecodeError" "Expecting ',' delimiter")
                      end
                  end
              | _ => Raise (Exc "JSONDecodeError" "Expecting ':' delimiter")
              end
          end
      | _ => Raise (Exc "JSONDecodeError" "Expecting property name enclosed in double quotes")
      end
  end.

End Json.

(** [json.loads(s)] on a [str]: one value, surrounded by optional
    whitespace and nothing else. *)
Definition json_loads (s : string) : Result json :=
  match Json.parse_value (2 * String.length s + 2) s with
  | Raise e => Raise e
  | Ok (v, r) =>
      if String.eqb (Json.skip_ws r) "" then Ok v
      else Raise (Exc "JSONDecodeError" "Extra data")
  end.

(* ------------------------------------------------------------------ *)
(** ** train.py: [load_dataset_from_jsonl] *)

Module Dataset.

(** [str.isspace] on one byte: the ASCII whitespace and the separators
    0x1C-0x1F. The non-ASCII whitespace Python's [str.strip] also removes
    (U+0085, U+00A0, U+2028, ...) is not recognised. *)
Definition py_isspace (c : ascii) : bool :=
  let n := nat_of_ascii c in
  ((9 <=? n)%nat && (n <=? 13)%nat) || ((28 <=? n)%nat && (n <=? 32)%nat).

Fixpoint lstrip (s : string) : string :=
  match s with
  | String c s' => if py_isspace c then lstrip s' else s
  | EmptyString => EmptyString
  end.

Definition rev_str (s : string) : string := string_of_list_ascii (rev (list_ascii_of_string s)).

(** [s.strip()] *)
Definition py_strip (s : string) : string := rev_str (lstrip (rev_str (lstrip s))).

(** [repr] of a decoded JSON value, as Python prints the dict, list, str,
    int/float, bool or None it decodes to, with two simplifications: a
    number is shown as its JSON literal (Python agrees for integers but
    shows a float in its own form, 1e2 as 100.0), and a string inside a
    list or dict is put between single quotes without Python's escaping.
    The statements below only rely on the rendering of string contents. *)
Fixpoint py_repr (v : json) : string :=
  match v with
  | JNull => "None"
  | JBool b => if b then "True" else "False"
  | JNum lit => lit
  | JStr s => "'" ++ s ++ "'"
  | JArr l =>
      "[" ++ (fix go (l : list json) : string :=
                match l with
                | [] => ""
                | [x] => py_repr x
                | x :: r => py_repr x ++ ", " ++ go r
                end) l ++ "]"
  | JObj kvs =>
      "{" ++ (fix go (l : list (string * json)) : string :=
                match l with
                | [] => ""
                | [(k, x)] => "'" ++ k ++ "': " ++ py_repr x
                | (k, x) :: r => "'" ++ k ++ "': " ++ py_repr x ++ ", " ++ go r
                end) kvs ++ "}"
  end.

(** [str(v)] ([f"{v}"]): a [str] is itself, anything else its [repr]
    (with the simplifications of [py_repr]). *)
Definition py_str (v : json) : string :=
  match v with JStr s => s | _ => py_repr v end.

(** The value bound to [k] in a decoded object (the last binding wins). *)
Definition obj_lookup (kvs : list (string * json)) (k : string) : option json :=
  fold_left (fun acc kv => if String.eqb (fst kv) k then Some (snd kv) else acc) kvs None.

(** [v[k]] with a [str] key. *)
Definition subscript (v : json) (k : string) : Result json :=
  match v with
  | JObj kvs =>
      match obj_lookup kvs k with
      | Some x => Ok x
      | None => Raise (Exc "KeyError" ("'" ++ k ++ "'"))
      end
  | JArr _ => Raise (Exc "TypeError" "list indices must be integers or slices, not str")
  | JStr _ => Raise (Exc "TypeError" "string indices must be integers, not 'str'")
  | _ => Raise (Exc "TypeError" "object is not subscriptable")
  end.

(** Distinct keys of an object, in first-insertion order. *)
Definition obj_keys (kvs : list (string * json)) : list string :=
  fold_left (fun acc kv => if existsb (String.eqb (fst kv)) acc then acc else app acc [fst kv])
    kvs [].

(** [for x in v]: lists yield their items, dicts their keys, strings
    their characters. *)
Definition py_iter (v : json) : Result (list json) :=
  match v with
  | JArr l => Ok l
  | JObj kvs => Ok (map JStr (obj_keys kvs))
  | JStr s => Ok (map (fun c => JStr (String c EmptyString)) (list_ascii_of_string s))
  | _ => Raise (Exc "TypeError" "object is not iterable")
  end.

Definition nl : string := String (ascii_of_nat 10) EmptyString.

(** The three f-strings of the loop body. *)
Definition tagged (tag content : string) : string :=
  "<|" ++ tag ++ "|>" ++ nl ++ content ++ "</s>" ++ nl.

(** One iteration: [role = msg["role"]; content = msg["content"]], then
    the text appended for that role ([""] for any other role). *)
Definition msg_text (msg : json) : Result string :=
  let! role := subscript msg "role" in
  let! content := subscript msg "content" in
  Ok (match role with
      | JStr r =>
          if String.eqb r "system" then tagged "system" (py_str content)
          else if String.eqb r "user" then tagged "user" (py_str content)
          else if String.eqb r "assistant" then tagged "assistant" (py_str content)
          else ""
      | _ => ""
      end).

Fixpoint concat_msgs (msgs : list json) (text : string) : Result string :=
  match msgs with
  | [] => Ok text
  | m :: rest => let! t := msg_text m in concat_msgs rest (text ++ t)
  end.

(** The text of one line: [entry = json.loads(line.strip())] and the loop
    over [entry["messages"]]. *)
Definition line_text (line : string) : Result string :=
  let! entry := json_loads (py_strip line) in
  let! msgs := subscript entry "messages" in
  let! items := py_iter msgs in
  concat_msgs items "".

(** [load_dataset_from_jsonl] on the lines of the file: the ["text"]
    column of the resulting dataset. *)
Fixpoint load_dataset_from_jsonl (lines : list string) : Result (list string) :=
  match lines with
  | [] => Ok []
  | l :: rest =>
      let! t := line_text l in
      let! ts := load_dataset_from_jsonl rest in
      Ok (t :: ts)
  end.

End Dataset.

(* ------------------------------------------------------------------ *)
(** ** train.py: [MetricsCallback] and [run_training] *)

Module Train.

(** The part of the trainer's [TrainerState] read by the callback. *)
Record trainer_state := {
  global_step : Z;
  max_steps : Z
}.

(** One call [on_log(args, state, control, logs)] made by the trainer;
    [ev_elapsed] is [time.time() - self.start_time] at that call. *)
Record log_event := {
  ev_logs : option metrics;
  ev_state : trainer_state;
  ev_elapsed : Q
}.

(** Contents written to the files under [output_dir]. *)
Inductive file :=
| FMetrics (m : metrics)     (* json.dump(metrics, f) *)
| FStatus (s : string).      (* json.dump({"status": s}, f) *)

(** [d.get(k, default)] *)
Definition get_default (d : metrics) (k : string) (dflt : mval) : mval :=
  match mget d k with Some v => v | None => dflt end.

(** [progress = state.global_step / state.max_steps if state.max_steps > 0 else 0] *)
Definition on_log_progress (st : trainer_state) : Result mval :=
  if (max_steps st >? 0)%Z then py_truediv (global_step st) (max_steps st)
  else Ok (MZ 0).

(** [MetricsCallback.on_log]: the snapshot written to [metrics_path], or
    [None] when the call returns early. The [open(self.metrics_path, "w")]
    and [json.dump] that write it are taken to succeed: a failing write
    (a full disk, a read-only directory) is not modelled. *)
Definition on_log (ev : log_event) : Result (option metrics) :=
  match ev_logs ev with
  | None => Ok None
  | Some logs =>
      let st := ev_state ev in
      let! progress := on_log_progress st in
      Ok (Some [("train_loss", get_default logs "loss" (MZ 0));
                ("eval_loss", get_default logs "eval_loss" (MZ 0));
                ("duration", MStr (format_1f (ev_elapsed ev) ++ "s"));
                ("progress", py_round4 progress);
                ("step", MZ (global_step st));
                ("max_steps", MZ (max_steps st))])
  end.

(** The calls of [on_log] during [trainer.train()], in order: the files
    written and whether a call raised. *)
Fixpoint run_callbacks (metrics_path : string) (evs : list log_event)
  : list (string * file) * Result unit :=
  match evs with
  | [] => ([], Ok tt)
  | ev :: rest =>
      match on_log ev with
      | Raise e => ([], Raise e)
      | Ok None => run_callbacks metrics_path rest
      | Ok (Some m) =>
          let (ws, r) := run_callbacks metrics_path rest in
          ((metrics_path, FMetrics m) :: ws, r)
      end
  end.

(** What the collaborators (filesystem, Unsloth, TRL trainer, clock) do
    during one call of [run_training]: each stage either returns or
    raises. *)
Record train_env := {
  te_makedirs : Result unit;           (* os.makedirs(output_dir, exist_ok=True) *)
  te_load_model : Result unit;         (* from_pretrained and get_peft_model *)
  te_dataset_lines : Result (list string);  (* open(dataset_path) and its lines *)
  te_trainer_init : Result unit;       (* TrainingArguments and SFTTrainer(...) *)
  te_events : list log_event;          (* on_log calls made by trainer.train() *)
  te_train : Result Q;                 (* trainer.train(): its training_loss *)
  te_save : Result unit;               (* save_pretrained of model and tokenizer *)
  te_elapsed : Q                       (* time.time() - start_time at the end *)
}.

(** The metrics dict returned by [run_training]. *)
Definition final_metrics (loss elapsed : Q) (n_samples : nat) : metrics :=
  [("train_loss", MQ loss);
   ("duration", MStr (format_1f elapsed ++ "s"));
   ("samples_used", MZ (Z.of_nat n_samples));
   ("progress", MQ 1)].

(** [run_training(...)] with [output_dir]: the files written, in order,
    and the returned metrics or the exception that escapes. Of the
    filesystem steps only [os.makedirs] may raise here; every write of
    status.json and metrics.json is taken to succeed, so the statements
    below say nothing about a directory that cannot be written or a final
    metrics write that fails. *)
Definition run_training (output_dir : string) (env : train_env)
  : list (string * file) * Result metrics :=
  let metrics_path := path_join output_dir "metrics.json" in
  let status_path := path_join output_dir "status.json" in
  match te_makedirs env with
  | Raise e => ([], Raise e)
  | Ok _ =>
  let w0 := [(status_path, FStatus "training")] in
  match (let! _ := te_load_model env in
         let! lines := te_dataset_lines env in
         let! dataset := Dataset.load_dataset_from_jsonl lines in
         let! _ := te_trainer_init env in
         Ok dataset) with
  | Raise e => (w0, Raise e)
  | Ok dataset =>
  let (w1, r1) := run_callbacks metrics_path (te_events env) in
  match r1 with
  | Raise e => (app w0 w1, Raise e)
  | Ok _ =>
  match te_train env with
  | Raise e => (app w0 w1, Raise e)
  | Ok loss =>
  (* on_train_end *)
  let w2 := [(status_path, FStatus "done")] in
  match te_save env with
  | Raise e => (app w0 (app w1 w2), Raise e)
  | Ok _ =>
  let m := final_metrics loss (te_elapsed env) (length dataset) in
  (app w0 (app w1 (app w2 [(metrics_path, FMetrics m); (status_path, FStatus "done")])), Ok m)
  end end end end end.

End Train.

(* ------------------------------------------------------------------ *)
(** ** main.py: global state, [/train], [/status], the worker thread *)

Module Sidecar.

Record TrainRequest := {
  dataset_path : string;
  base_model_path : string;
  output_dir : string;
  run_id : option string;
  epochs : Z;
  learning_rate : Q;
  lora_rank : Z;
  lora_alpha : Z;
  batch_size : Z
}.

(** A value of [_runs]: [{"status": s, "metrics": m}] or
    [{"status": s, "error": e}]. *)
Record RunInfo := {
  status : string;
  rmetrics : option metrics;
  rerror : option string
}.

(** [{"status": "training", "metrics": {}}] *)
Definition training_info : RunInfo :=
  {| status := "training"; rmetrics := Some []; rerror := None |}.
(** [{"status": "done", "metrics": metrics}] *)
Definition done_info (m : metrics) : RunInfo :=
  {| status := "done"; rmetrics := Some m; rerror := None |}.
(** [{"status": "failed", "error": str(e)}] *)
Definition failed_info (e : string) : RunInfo :=
  {| status := "failed"; rmetrics := None; rerror := Some e |}.

(** Where a [_train] thread is: inside [run_training] (the file writes it
    still has to make, and how the call ends), or in its [finally] clause,
    about to clear [_current_run]. A thread that has cleared
    [_current_run] only leaves the lock and returns; it changes nothing
    more and is no longer tracked. *)
Inductive phase :=
| Running (pending : list (string * Train.file)) (outcome : Result metrics)
| Releasing.

Record Thread := {
  t_run_id : string;
  t_phase : phase
}.

(** The process: [_current_run], [_runs], the live [_train] threads and
    the files they wrote. *)
Record State := {
  current_run : option string;
  runs : gmap string RunInfo;
  threads : list Thread;
  fs : gmap string Train.file
}.

Definition init_state : State :=
  {| current_run := None; runs := ∅; threads := []; fs := ∅ |}.

(** [POST /train]: the [with _lock] block, then [thread.start()].
    [u] is the value drawn by [uuid.uuid4()] and [env] how the
    collaborators will behave for the thread's [run_training] call.
    The two are one step here: [thread.start()] is taken to succeed, and
    nothing else is scheduled between the end of the locked block and
    the new thread's existence. *)
Definition start_training (s : State) (req : TrainRequest) (u : Z) (env : Train.train_env)
  : http (string * string) * State :=
  match current_run s with
  | Some cur => (HErr 409 ("Training already in progress: " ++ cur), s)
  | None =>
      let rid := opt_str_or (run_id req) (gen_run_id u) in
      let (ws, out) := Train.run_training (output_dir req) env in
      (HOk (rid, "training"),
       {| current_run := Some rid;
          runs := <[rid := training_info]> (runs s);
          threads := threads s ++ [{| t_run_id := rid; t_phase := Running ws out |}];
          fs := fs s |})
  end.

(** [for run_data in _runs.values(): pass] *)
Fixpoint loop_pass (vals : list RunInfo) (s : State) : State :=
  match vals with
  | [] => s
  | _ :: rest => loop_pass rest s
  end.

(** [GET /status/{run_id}] when no other request or thread acts while
    it runs ([get_status_conc] below has the interleavings). *)
Definition get_status (s : State) (rid : string) : http RunInfo * State :=
  match runs s !! rid with
  | None => (HErr 404 ("Run " ++ rid ++ " not found"), s)
  | Some info =>
      let s' := if String.eqb (status info) "training"
                then loop_pass (map snd (map_to_list (runs s))) s else s in
      (HOk info, s')
  end.

Definition set_thread (s : State) (i : nat) (t : Thread) : State :=
  {| current_run := current_run s; runs := runs s;
     threads := <[i := t]> (threads s); fs := fs s |}.

(** A thread inside [run_training] makes its next file write. *)
Definition thread_write (s : State) (i : nat) : option State :=
  match threads s !! i with
  | Some {| t_run_id := r; t_phase := Running ((p, f) :: ws) out |} =>
      let s' := set_thread s i {| t_run_id := r; t_phase := Running ws out |} in
      Some {| current_run := current_run s'; runs := runs s'; threads := threads s';
              fs := <[p := f]> (fs s') |}
  | _ => None
  end.

(** [run_training] has returned or raised: the [try]/[except Exception]
    body of [_train]. A [BaseException] outside [Exception] is not caught
    and leaves [_runs] as it is. *)
Definition thread_finish (s : State) (i : nat) : option State :=
  match threads s !! i with
  | Some {| t_run_id := r; t_phase := Running [] out |} =>
      let runs' := match out with
                   | Ok m => <[r := done_info m]> (runs s)
                   | Raise (Exc _ msg) => <[r := failed_info msg]> (runs s)
                   | Raise (BaseExc _ _) => runs s
                   end in
      Some {| current_run := current_run s; runs := runs';
              threads := <[i := {| t_run_id := r; t_phase := Releasing |}]> (threads s);
              fs := fs s |}
  | _ => None
  end.

(** The [finally] clause: [with _lock: _current_run = None]. The thread
    is dropped at this step; what it still does (release the lock and
    return) changes no state. *)
Definition thread_release (s : State) (i : nat) : option State :=
  match threads s !! i with
  | Some {| t_phase := Releasing |} =>
      Some {| current_run := None; runs := runs s;
              threads := delete i (threads s); fs := fs s |}
  | _ => None
  end.

(** The events that move the process. *)
Inductive event :=
| EStart (req : TrainRequest) (u : Z) (env : Train.train_env)
| EWrite (i : nat)
| EFinish (i : nat)
| ERelease (i : nat)
| EStatus (rid : string).

Definition step (s : State) (e : event) : option State :=
  match e with
  | EStart req u env => Some (snd (start_training s req u env))
  | EWrite i => thread_write s i
  | EFinish i => thread_finish s i
  | ERelease i => thread_release s i
  | EStatus rid => Some (snd (get_status s rid))
  end.

(** The run id an event enters into [_runs], if any. *)
Definition created_by (s : State) (e : event) : option string :=
  match e with
  | EStart req u env =>
      match fst (start_training s req u env) with
      | HOk (rid, _) => Some rid
      | HErr _ _ => None
      end
  | _ => None
  end.

(** Running a sequence of events; also collects the run ids created. *)
Fixpoint run_events (s : State) (evs : list event) : option (State * list string) :=
  match evs with
  | [] => Some (s, [])
  | e :: rest =>
      match step s e with
      | None => None
      | Some s' =>
          match run_events s' rest with
          | None => None
          | Some (s'', created) =>
              Some (s'', match created_by s e with
                         | Some rid => rid :: created
                         | None => created
                         end)
          end
      end
  end.

(** Events run by other threads at the next point where the status
    handler can be preempted, and those left for the later points. *)
Definition next_slot (b : list (list event)) : list event * list (list event) :=
  match b with
  | [] => ([], [])
  | evs :: rest => (evs, rest)
  end.

Definition size_changed_error : exn :=
  Exc "RuntimeError" "dictionary changed size during iteration".

(** [for run_data in _runs.values(): pass] on an iterator created when
    [_runs] had [n0] entries, [left] values still to come. Before each
    call of [next()] other threads may run; a [next()] that finds the
    size of [_runs] changed raises [RuntimeError], also on the call that
    would end the loop. [None] when an event cannot happen. *)
Fixpoint values_loop (left n0 : nat) (s : State) (b : list (list event))
  : option (Result unit * State) :=
  match run_events s (fst (next_slot b)) with
  | None => None
  | Some (s1, _) =>
      if negb (Nat.eqb (size (runs s1)) n0) then Some (Raise size_changed_error, s1)
      else match left with
           | O => Some (Ok tt, s1)
           | S l => values_loop l n0 s1 (snd (next_slot b))
           end
  end.

(** [GET /status/{run_id}] as a worker thread of the server runs it while
    other requests and the [_train] thread go on: the handler takes no
    lock, so other events may run between the membership test and the
    read of [_runs[run_id]], between that read and [iter(_runs.values())],
    and before each [next()]; [b] lists them, point by point (a missing
    entry means none). An uncaught exception is answered by FastAPI with
    500 ["Internal Server Error"]. *)
Definition get_status_conc (s : State) (rid : string) (b : list (list event))
  : option (http RunInfo * State) :=
  match runs s !! rid with
  | None => Some (HErr 404 ("Run " ++ rid ++ " not found"), s)
  | Some _ =>
      match run_events s (fst (next_slot b)) with
      | None => None
      | Some (s1, _) =>
          match runs s1 !! rid with
          | None => Some (HErr 500 "Internal Server Error", s1)
          | Some info =>
              if String.eqb (status info) "training" then
                let b1 := snd (next_slot b) in
                match run_events s1 (fst (next_slot b1)) with
                | None => None
                | Some (s2, _) =>
                    match values_loop (size (runs s2)) (size (runs s2)) s2 (snd (next_slot b1)) with
                    | None => None
                    | Some (Ok _, s3) => Some (HOk info, s3)
                    | Some (Raise _, s3) => Some (HErr 500 "Internal Server Error", s3)
                    end
                end
              else Some (HOk info, s1)
          end
      end
  end.

End Sidecar.

(* ------------------------------------------------------------------ *)
(** ** main.py: [POST /convert] *)

Module Convert.

Record ConvertRequest := {
  model_dir : string;
  output_path : string;
  quantization : string
}.

(** How [subprocess.run(cmd, capture_output=True, text=True, timeout=600)]
    ends: the child exits, the timeout fires ([TimeoutExpired]), or the
    child cannot be started. *)
Inductive proc_result :=
| Completed (returncode : Z) (stdout stderr : string)
| TimedOut
| SpawnError (e : exn).

(** The process environment seen by the handler. [Path.home()] raises
    [RuntimeError] when the home directory cannot be determined;
    [Path.exists()] answers [False] for ENOENT, ENOTDIR, EBADF and ELOOP
    and re-raises any other [OSError] (e.g. [PermissionError]). *)
Record convert_env := {
  home : Result string;                         (* Path.home() *)
  path_exists : string -> Result bool;          (* Path.exists() *)
  makedirs : string -> Result unit;             (* os.makedirs(d, exist_ok=True), d <> "" *)
  subprocess_run : list string -> Z -> proc_result
}.

(** [search_paths], built from the home directory [h]. *)
Definition search_paths (h : string) : list string :=
  [path_join (path_join (path_join (path_join (path_join h ".local") "share")
                                   "tanrenai") "bin") "convert_hf_to_gguf.py";
   "/usr/local/bin/convert_hf_to_gguf.py";
   "convert_hf_to_gguf.py"].

(** [for p in search_paths: if p.exists(): convert_script = str(p); break] *)
Fixpoint find_first (ex : string -> Result bool) (ps : list string) : Result (option string) :=
  match ps with
  | [] => Ok None
  | p :: rest => let! b := ex p in if b then Ok (Some p) else find_first ex rest
  end.

(** Position of the last ['/'] of [s], if any. *)
Fixpoint last_slash (s : string) (i : nat) (acc : option nat) : option nat :=
  match s with
  | EmptyString => acc
  | String c s' => last_slash s' (S i) (if Ascii.eqb c "/"%char then Some i else acc)
  end.

Fixpoint all_slashes (s : string) : bool :=
  match s with
  | EmptyString => true
  | String c s' => Ascii.eqb c "/"%char && all_slashes s'
  end.

Definition rstrip_slashes (s : string) : string :=
  Dataset.rev_str
    ((fix go (t : string) : string :=
        match t with
        | String "/"%char t' => go t'
        | _ => t
        end) (Dataset.rev_str s)).

(** [os.path.dirname(p)] (posixpath). *)
Definition dirname (p : string) : string :=
  match last_slash p 0 None with
  | None => ""
  | Some i =>
      let head := substring 0 (S i) p in
      if all_slashes head then head else rstrip_slashes head
  end.

(** [os.makedirs(d, exist_ok=True)]; the empty path is refused. *)
Definition py_makedirs (env : convert_env) (d : string) : Result unit :=
  if String.eqb d "" then
    Raise (Exc "FileNotFoundError" "[Errno 2] No such file or directory: ''")
  else makedirs env d.

Definition cmd (script : string) (req : ConvertRequest) : list string :=
  ["python3"; script; model_dir req; "--outfile"; output_path req;
   "--outtype"; str_lower (quantization req)].

Definition py_list_repr (l : list string) : string :=
  "[" ++ (fix go (l : list string) : string :=
            match l with
            | [] => ""
            | [x] => "'" ++ x ++ "'"
            | x :: r => "'" ++ x ++ "', " ++ go r
            end) l ++ "]".

Definition not_found_msg : string :=
  "convert_hf_to_gguf.py not found. Place it in ~/.local/share/tanrenai/bin/".

(** [except Exception as e: raise HTTPException(status_code=500, detail=str(e))]:
    an [Exception] becomes a 500 answer; a [BaseException] outside
    [Exception] escapes the handler. *)
Definition except_Exception {A} (e : exn) : Result (http A) :=
  match e with
  | Exc _ msg => Ok (HErr 500 msg)
  | BaseExc cls msg => Raise (BaseExc cls msg)
  end.

(** [convert_to_gguf(req)]: the answer (or the exception that escapes),
    and the commands passed to [subprocess.run]. *)
Definition convert_to_gguf (env : convert_env) (req : ConvertRequest)
  : Result (http (string * string)) * list (list string) :=
  match home env with
  | Raise e => (except_Exception e, [])
  | Ok h =>
  match find_first (path_exists env) (search_paths h) with
  | Raise e => (except_Exception e, [])
  | Ok None => (Ok (HErr 500 not_found_msg), [])
  | Ok (Some script) =>
      match py_makedirs env (dirname (output_path req)) with
      | Raise e => (except_Exception e, [])
      | Ok _ =>
          let c := cmd script req in
          (match subprocess_run env c 600 with
           | Completed rc _ err =>
               if (rc =? 0)%Z then Ok (HOk ("ok", output_path req))
               else Ok (HErr 500 ("Conversion failed: " ++ err))
           | TimedOut =>
               Ok (HErr 500 ("Command '" ++ py_list_repr c ++ "' timed out after 600 seconds"))
           | SpawnError e => except_Exception e
           end, [c])
      end
  end
  end.

End Convert.

(* ------------------------------------------------------------------ *)
(** ** main.py: [POST /merge] *)

Module Merge.

Record MergeRequest := {
  base_model_path : string;
  adapter_dir : string;
  output_path : string
}.

(** The collaborators of the handler: each call returns or raises. *)
Record merge_env := {
  load_base : string -> Result unit;     (* import unsloth; FastLanguageModel.from_pretrained *)
  load_adapter : string -> Result unit;  (* import peft; PeftModel.from_pretrained *)
  merge_and_unload : Result unit;        (* model.merge_and_unload() *)
  makedirs : string -> Result unit;      (* os.makedirs(d, exist_ok=True), d <> "" *)
  save_model : string -> Result unit;    (* model.save_pretrained(p) *)
  save_tokenizer : string -> Result unit (* tokenizer.save_pretrained(p) *)
}.

(** What the handler leaves on disk: the directory it created and the
    checkpoints it saved there. *)
Inductive merge_write :=
| WDir (p : string)
| WModel (p : string)
| WTokenizer (p : string).

(** [os.makedirs(d, exist_ok=True)]; the empty path is refused. *)
Definition py_makedirs (env : merge_env) (d : string) : Result unit :=
  if String.eqb d "" then
    Raise (Exc "FileNotFoundError" "[Errno 2] No such file or directory: ''")
  else makedirs env d.

(** The body of the [try] block: the writes made and how it ends. *)
Definition merge_body (env : merge_env) (req : MergeRequest) : list merge_write * Result unit :=
  let p := output_path req in
  match load_base env (base_model_path req) with
  | Raise e => ([], Raise e)
  | Ok _ =>
  match load_adapter env (adapter_dir req) with
  | Raise e => ([], Raise e)
  | Ok _ =>
  match merge_and_unload env with
  | Raise e => ([], Raise e)
  | Ok _ =>
  match py_makedirs env p with
  | Raise e => ([], Raise e)
  | Ok _ =>
  match save_model env p with
  | Raise e => ([WDir p], Raise e)
  | Ok _ =>
  match save_tokenizer env p with
  | Raise e => ([WDir p; WModel p], Raise e)
  | Ok _ => ([WDir p; WModel p; WTokenizer p], Ok tt)
  end end end end end end.

(** [merge_adapter(req)]: [except Exception as e] turns an exception into
    a 500 answer carrying [str(e)]; a [BaseException] outside [Exception]
    escapes the handler. *)
Definition merge_adapter (env : merge_env) (req : MergeRequest)
  : list merge_write * Result (http (string * string)) :=
  let (ws, r) := merge_body env req in
  (ws, match r with
       | Ok _ => Ok (HOk ("ok", output_path req))
       | Raise (Exc _ msg) => Ok (HErr 500 msg)
       | Raise (BaseExc cls msg) => Raise (BaseExc cls msg)
       end).

End Merge.

(* ------------------------------------------------------------------ *)
(** ** Observations used by the statements *)

(** A list in which every element is related by [le] to all later ones
    (for a preorder: a non-decreasing sequence). *)
Fixpoint never_decreases {A} (le : A -> A -> Prop) (l : list A) : Prop :=
  match l with
  | [] => True
  | x :: rest => Forall (le x) rest /\ never_decreases le rest
  end.

(** The numeric value of a metrics entry. *)
Definition mval_Q (v : mval) : option Q :=
  match v with MQ q => Some q | MZ z => Some (inject_Z z) | MStr _ => None end.

(** The ["progress"] values of the metrics snapshots in a sequence of file
    writes, in order. *)
Fixpoint progress_trace (ws : list (string * Train.file)) : list Q :=
  match ws with
  | [] => []
  | (_, Train.FMetrics m) :: rest =>
      match match mget m "progress" with Some v => mval_Q v | None => None end with
      | Some q => q :: progress_trace rest
      | None => progress_trace rest
      end
  | _ :: rest => progress_trace rest
  end.

(** The ["progress"] value of the snapshot one [on_log] call writes, if
    it writes one. *)
Definition snapshot_progress (ev : Train.log_event) : option Q :=
  match Train.on_log ev with
  | Ok (Some m) => match mget m "progress" with Some v => mval_Q v | None => None end
  | _ => None
  end.

(** The progress value of a snapshot, after [round(progress, 4)]. *)
Definition callback_progress (st : Train.trainer_state) : Q :=
  if (Train.max_steps st >? 0)%Z
  then round4 (inject_Z (Train.global_step st) / inject_Z (Train.max_steps st))
  else 0.

(** The role-tagged segment of one message, following the wording of the
    dataset contract: a [system], [user] or [assistant] message gives
    ["<|role|>\n" ++ content ++ "</s>\n"], any other role nothing. *)
Definition spec_segment (msg : json) : option string :=
  match msg with
  | JObj kvs =>
      match Dataset.obj_lookup kvs "role", Dataset.obj_lookup kvs "content" with
      | Some (JStr r), Some c =>
          if existsb (String.eqb r) ["system"; "user"; "assistant"]
          then Some ("<|" ++ r ++ "|>" ++ Dataset.nl ++ Dataset.py_str c ++ "</s>" ++ Dataset.nl)
          else None
      | _, _ => None
      end
  | _ => None
  end.

Definition spec_sample_text (msgs : list json) : string :=
  String.concat "" (omap spec_segment msgs).

(** A message the loop can read: an object with ["role"] and ["content"]. *)
Definition readable_msg (msg : json) : Prop :=
  exists kvs r c, msg = JObj kvs /\ Dataset.obj_lookup kvs "role" = Some r /\
                  Dataset.obj_lookup kvs "content" = Some c.



(* ------------------------------------------------------------------ *)
(** ** Concrete inputs *)

Module Examples.
Import Sidecar Train.

(** One on_log call: [{loss: 0.8}] at step 1 of 10. *)
Definition ev_step1 : log_event :=
  {| ev_logs := Some [("loss", MQ (8 # 10))];
     ev_state := {| global_step := 1; max_steps := 10 |};
     ev_elapsed := 3 # 2 |}.

(** The line [{"messages": [{"role": "user", "content": "hi"}]}]. *)
Definition json_line_user_hi : string :=
  "{" ++ quoted "messages" ++ ": [{" ++ quoted "role" ++ ": " ++ quoted "user" ++ ", "
      ++ quoted "content" ++ ": " ++ quoted "hi" ++ "}]}".


(** The line [{"messages": [{"role": "tool"}]}]. *)
Definition json_line_tool_no_content : string :=
  "{" ++ quoted "messages" ++ ": [{" ++ quoted "role" ++ ": " ++ quoted "tool" ++ "}]}".

(** A run that trains on a one-line dataset and ends with
    [training_loss = 0.42]. *)
Definition env_ok : train_env :=
  {| te_makedirs := Ok tt; te_load_model := Ok tt;
     te_dataset_lines := Ok [json_line_user_hi];
     te_trainer_init := Ok tt; te_events := [ev_step1];
     te_train := Ok (42 # 100); te_save := Ok tt; te_elapsed := 5 |}.

(** A run whose model loading calls [sys.exit(1)]. *)
Definition env_exit : train_env :=
  {| te_makedirs := Ok tt; te_load_model := Raise (BaseExc "SystemExit" "1");
     te_dataset_lines := Ok []; te_trainer_init := Ok tt; te_events := [];
     te_train := Ok 0%Q; te_save := Ok tt; te_elapsed := 0%Q |}.

(** A run that trains, then fails to save the adapter. *)
Definition env_save_fails : train_env :=
  {| te_makedirs := Ok tt; te_load_model := Ok tt;
     te_dataset_lines := Ok [json_line_user_hi];
     te_trainer_init := Ok tt; te_events := [ev_step1];
     te_train := Ok (42 # 100);
     te_save := Raise (Exc "OSError" "[Errno 28] No space left on device");
     te_elapsed := 5 |}.

Definition req_with (rid : option string) : TrainRequest :=
  {| dataset_path := "data.jsonl"; base_model_path := "base"; output_dir := "out";
     run_id := rid; epochs := 3; learning_rate := 2 # 10000; lora_rank := 16;
     lora_alpha := 32; batch_size := 4 |}.

(** Start ["abc123"]; the thread writes status.json and one snapshot. *)
Definition trace_progress : list event :=
  [EStart (req_with (Some "abc123")) 0 env_ok; EWrite 0; EWrite 0].

(** Start ["abc123"] and let it run to [done]. *)
Definition trace_done : list event :=
  [EStart (req_with (Some "abc123")) 0 env_ok; EWrite 0; EWrite 0; EWrite 0;
   EWrite 0; EWrite 0; EFinish 0; ERelease 0].

(** A run whose trainer reports step 5 of 10 and then step 6 of 20. *)
Definition ev_at (step maxs : Z) : log_event :=
  {| ev_logs := Some [("loss", MQ 1)];
     ev_state := {| global_step := step; max_steps := maxs |};
     ev_elapsed := 1 |}.

Definition env_max_change : train_env :=
  {| te_makedirs := Ok tt; te_load_model := Ok tt; te_dataset_lines := Ok [];
     te_trainer_init := Ok tt; te_events := [ev_at 5 10; ev_at 6 20];
     te_train := Ok 1%Q; te_save := Ok tt; te_elapsed := 2%Q |}.

(** A machine where the conversion script is installed under
    [/usr/local/bin] and any conversion exits with status 0. *)
Definition conv_env_ok : Convert.convert_env :=
  {| Convert.home := Ok "/home/user";
     Convert.path_exists := fun p => Ok (String.eqb p "/usr/local/bin/convert_hf_to_gguf.py");
     Convert.makedirs := fun _ => Ok tt;
     Convert.subprocess_run := fun _ _ => Convert.Completed 0 "" "" |}.

Definition conv_req : Convert.ConvertRequest :=
  {| Convert.model_dir := "/merged"; Convert.output_path := "/models/x.gguf";
     Convert.quantization := "Q4_K_M" |}.

(** A request whose output path names a file in the working directory. *)
Definition conv_req_bare : Convert.ConvertRequest :=
  {| Convert.model_dir := "/merged"; Convert.output_path := "x.gguf";
     Convert.quantization := "Q4_K_M" |}.

(** The state reached by running [evs] from the initial state. *)
Definition st_after (evs : list event) : State :=
  match run_events init_state evs with Some (s, _) => s | None => init_state end.

(** The metrics returned by the run of [env_ok]. *)
Definition metrics_ok : metrics := final_metrics (42 # 100) 5 1.

(** A run that raises [sys.exit(1)] while loading the model, up to the
    point where [run_training] has ended. *)
Definition trace_exit : list event :=
  [EStart (req_with (Some "abc123")) 0 env_exit; EWrite 0].

(** Run ["a"] has just been admitted. *)
Definition trace_start_a : list event := [EStart (req_with (Some "a")) 0 env_ok].

(** While a status query for ["a"] loops over [_runs.values()], run
    ["a"] ends (its five file writes, the registry update and the
    release) and a start-training request for ["b"] is admitted, before
    the query's second call of [next()]. *)
Definition race_a_then_b : list (list event) :=
  [[]; []; [];
   [EWrite 0; EWrite 0; EWrite 0; EWrite 0; EWrite 0; EFinish 0; ERelease 0;
    EStart (req_with (Some "b")) 0 env_ok]].

End Examples.

(** ** Invariant of the reachable states *)

Module Invariants.
Import Sidecar.

(** The metrics [run_training] returns report [progress = 1.0]. *)
Definition out_progress_one (out : Result metrics) : Prop :=
  forall m, out = Ok m -> mget m "progress" = Some (MQ 1).

(** The three shapes a value of [_runs] takes. *)
Definition good_record (info : RunInfo) : Prop :=
  info = training_info \/
  (exists m, info = done_info m /\ mget m "progress" = Some (MQ 1)) \/
  (exists e, info = failed_info e).

(** The invariant of the reachable states: at most one [_train] thread,
    [_current_run] names it exactly while it lives, and while it is inside
    [run_training] its record is still the initial one. *)
Definition Inv (s : State) : Prop :=
  map_Forall (fun _ => good_record) (runs s) /\
  match threads s with
  | [] => current_run s = None
  | [t] =>
      current_run s = Some (t_run_id t) /\
      match t_phase t with
      | Running _ out => runs s !! t_run_id t = Some training_info /\ out_progress_one out
      | Releasing => is_Some (runs s !! t_run_id t)
      end
  | _ => False
  end.


End Invariants.

(* ================================================================== *)
(* ------------------------------------------------------------------ *)
(** ** Further observations *)

(** A lower-case hexadecimal digit [0-9a-f]. *)
Definition is_lower_hex (c : ascii) : bool :=
  let n := nat_of_ascii c in
  ((48 <=? n)%nat && (n <=? 57)%nat) || ((97 <=? n)%nat && (n <=? 102)%nat).

Definition all_chars (p : ascii -> bool) (s : string) : bool :=
  forallb p (list_ascii_of_string s).

(** The last contents written to [path] by a sequence of writes. *)
Definition last_write (ws : list (string * Train.file)) (path : string) : option Train.file :=
  fold_left (fun acc w => if String.eqb (fst w) path then Some (snd w) else acc) ws None.

(** The status values written to [path], in order. *)
Definition status_writes (ws : list (string * Train.file)) (path : string) : list string :=
  omap (fun w => match w with
                 | (q, Train.FStatus st) => if String.eqb q path then Some st else None
                 | _ => None
                 end) ws.

(** The number of [on_log] calls that received logs. *)
Definition logged_events (evs : list Train.log_event) : nat :=
  length (filter (fun ev => is_Some (Train.ev_logs ev)) evs).

(** The keys of a callback snapshot, in order. *)
Definition snapshot_keys : list string :=
  ["train_loss"; "eval_loss"; "duration"; "progress"; "step"; "max_steps"].

(** The stages of [run_training] between the initial status write and the
    training loop: loading the model, reading and converting the dataset,
    building the trainer. *)
Definition training_prelude (env : Train.train_env) : Result (list string) :=
  let! _ := Train.te_load_model env in
  let! lines := Train.te_dataset_lines env in
  let! dataset := Dataset.load_dataset_from_jsonl lines in
  let! _ := Train.te_trainer_init env in
  Ok dataset.

(** A CRLF line ending. *)
Definition crlf : string := String (ascii_of_nat 13) Dataset.nl.

(** * Properties *)

Module TrainLemmas.
Import Train.

Lemma on_log_progress_eq (st : trainer_state) :
  on_log_progress st =
    Ok (if (max_steps st >? 0)%Z
        then MQ (inject_Z (global_step st) / inject_Z (max_steps st))
        else MZ 0).
Proof.
  unfold on_log_progress, py_truediv.
  destruct (max_steps st >? 0)%Z eqn:Hgt; [|reflexivity].
  apply Z.gtb_lt in Hgt.
  destruct (max_steps st =? 0)%Z eqn:Heq; [apply Z.eqb_eq in Heq; lia|].
  reflexivity.
Qed.

Lemma on_log_ok (ev : log_event) : exists r, on_log ev = Ok r.
Proof.
  unfold on_log. destruct (ev_logs ev) as [logs|]; [|eexists; reflexivity].
  rewrite on_log_progress_eq. simpl. eexists; reflexivity.
Qed.

End TrainLemmas.

Module AdmissionProofs.
Import Sidecar.

(** C1 (as amended). A start-training request made while a run is
    active is answered with 409 naming the active run and leaves the whole
    state unchanged; otherwise it is admitted: [_runs] gains the record
    [{"status": "training", "metrics": {}}] under the assigned id, that id
    becomes the active run, and the answer is [{run_id, "training"}]. The
    assigned id is the caller's [run_id] when it is a non-empty string, and
    [str(uuid.uuid4())[:12]] when it is absent or empty. *)
Theorem start_training_admission (s : State) (req : TrainRequest) (u : Z)
    (env : Train.train_env) :
  match current_run s with
  | Some cur =>
      start_training s req u env = (HErr 409 ("Training already in progress: " ++ cur), s)
  | None =>
      let rid := match run_id req with
                 | Some x => if String.eqb x "" then gen_run_id u else x
                 | None => gen_run_id u
                 end in
      fst (start_training s req u env) = HOk (rid, "training") /\
      runs (snd (start_training s req u env)) = <[rid := training_info]> (runs s) /\
      current_run (snd (start_training s req u env)) = Some rid
  end.
Proof.
  unfold start_training.
  destruct (current_run s) as [cur|]; [reflexivity|].
  destruct (Train.run_training (output_dir req) env) as [ws out].
  unfold opt_str_or; simpl.
  repeat split.
Qed.

(** C1 counterexample: a request whose [run_id] is the empty string is
    admitted under a generated id, not under the id it supplied. *)
Lemma start_training_empty_run_id :
  run_id (Examples.req_with (Some "")) = Some "" /\
  fst (start_training init_state (Examples.req_with (Some "")) 0 Examples.env_ok)
    = HOk ("00000000-000", "training").
Proof. split; vm_compute; reflexivity. Qed.

End AdmissionProofs.

Module ProgressProofs.
Import Train.

(** C5. Every call of the metrics callback completes without raising,
    and the progress it computes is [global_step / max_steps] when
    [max_steps > 0] and [0] otherwise (in particular when [max_steps = 0]),
    the division being performed only in the first case. *)
Theorem on_log_progress_no_division_by_zero (ev : log_event) :
  (exists r, on_log ev = Ok r) /\
  on_log_progress (ev_state ev) =
    Ok (if (max_steps (ev_state ev) >? 0)%Z
        then MQ (inject_Z (global_step (ev_state ev)) / inject_Z (max_steps (ev_state ev)))
        else MZ 0).
Proof.
  split; [apply TrainLemmas.on_log_ok|apply TrainLemmas.on_log_progress_eq].
Qed.

End ProgressProofs.

Module RegistryProofs.
Import Sidecar Invariants.

Lemma run_training_progress_one (d : string) (env : Train.train_env) :
  out_progress_one (snd (Train.run_training d env)).
Proof.
  intros m. unfold Train.run_training.
  repeat (case_match; simpl; try discriminate).
  intros [= <-]. reflexivity.
Qed.

Lemma loop_pass_id (vals : list RunInfo) (s : State) : loop_pass vals s = s.
Proof. induction vals; simpl; auto. Qed.

Lemma get_status_state (s : State) (rid : string) : snd (get_status s rid) = s.
Proof.
  unfold get_status. destruct (runs s !! rid); [|reflexivity].
  simpl. destruct (String.eqb _ _); [apply loop_pass_id|reflexivity].
Qed.

Lemma Inv_init : Inv init_state.
Proof. split; [apply map_Forall_empty|reflexivity]. Qed.

Lemma step_Inv (s s' : State) (e : event) : Inv s -> step s e = Some s' -> Inv s'.
Proof.
  intros [Hrec Hth] Hstep.
  destruct e as [req u env|i|i|i|rid]; simpl in Hstep.
  - injection Hstep as <-. unfold start_training.
    destruct (current_run s) as [cur|] eqn:Hcur;
      [simpl; rewrite <- Hcur in Hth; exact (conj Hrec Hth)|].
    destruct (Train.run_training (output_dir req) env) as [ws out] eqn:Hrt; simpl.
    destruct (threads s) as [|t0 [|t1 rest]]; [|destruct Hth; congruence|contradiction].
    split; simpl.
    + apply map_Forall_insert_2; [left; reflexivity|assumption].
    + split; [reflexivity|]. split; [apply lookup_insert_eq|].
      pose proof (run_training_progress_one (output_dir req) env) as Hp.
      rewrite Hrt in Hp. exact Hp.
  - unfold thread_write in Hstep.
    destruct (threads s) as [|t0 [|t1 rest]] eqn:Hts; [|destruct i; [|destruct i]|contradiction];
      simpl in Hstep; try discriminate.
    destruct t0 as [r [[|[p f] ws] out|]]; try discriminate.
    injection Hstep as <-. split; [assumption|]. unfold set_thread; simpl.
    rewrite Hts. simpl. exact Hth.
  - unfold thread_finish in Hstep.
    destruct (threads s) as [|t0 [|t1 rest]] eqn:Hts; [|destruct i; [|destruct i]|contradiction];
      simpl in Hstep; try discriminate.
    destruct t0 as [r [[|[p f] ws] out|]]; try discriminate.
    injection Hstep as <-. simpl in Hth. destruct Hth as [Hcur [Hr Hout]].
    split; simpl.
    + destruct out as [m|[cls msg|cls msg]].
      * apply map_Forall_insert_2; [|assumption].
        right; left. exists m. split; [reflexivity|]. apply Hout. reflexivity.
      * apply map_Forall_insert_2; [|assumption]. right; right. eexists; reflexivity.
      * assumption.
    + split; [exact Hcur|].
      destruct out as [m|[cls msg|cls msg]]; simpl;
        try (rewrite lookup_insert_eq; eexists; reflexivity).
      rewrite Hr. eexists; reflexivity.
  - unfold thread_release in Hstep.
    destruct (threads s) as [|t0 [|t1 rest]] eqn:Hts; [|destruct i; [|destruct i]|contradiction];
      simpl in Hstep; try discriminate.
    destruct t0 as [r [ws out|]]; try discriminate.
    injection Hstep as <-. split; [assumption|]. simpl; rewrite ?Hts; reflexivity.
  - injection Hstep as <-. rewrite get_status_state. split; assumption.
Qed.

Lemma run_events_Inv (evs : list event) (s s' : State) (c : list string) :
  Inv s -> run_events s evs = Some (s', c) -> Inv s'.
Proof.
  revert s c. induction evs as [|e rest IH]; intros s c HI Hrun; simpl in Hrun.
  - injection Hrun as <- _. exact HI.
  - destruct (step s e) as [s1|] eqn:Hs; [|discriminate].
    destruct (run_events s1 rest) as [[s2 c2]|] eqn:Hr; [|discriminate].
    injection Hrun as <- _. eapply IH; [eapply step_Inv; eassumption|exact Hr].
Qed.

Lemma reachable_Inv (evs : list event) (s : State) (c : list string) :
  run_events init_state evs = Some (s, c) -> Inv s.
Proof. apply run_events_Inv, Inv_init. Qed.

End RegistryProofs.

Module RegistryClaims.
Import Sidecar Invariants RegistryProofs.

(** How one event can change [_runs] at a key: not at all, by an admitted
    start-training request that assigns that key (to a fresh training
    record), or by the worker of that run, whose record was still the
    initial training record and stays present. *)
Lemma step_runs (s s' : State) (e : event) (k : string) :
  Inv s -> step s e = Some s' ->
  runs s' !! k = runs s !! k \/
  (created_by s e = Some k /\ runs s' !! k = Some training_info) \/
  (runs s !! k = Some training_info /\ is_Some (runs s' !! k)).
Proof.
  intros [Hrec Hth] Hstep.
  destruct e as [req u env|i|i|i|rid]; simpl in Hstep.
  - injection Hstep as <-. unfold created_by, start_training.
    destruct (current_run s) as [cur|]; [left; reflexivity|].
    destruct (Train.run_training (output_dir req) env) as [ws out]; simpl.
    destruct (decide (k = opt_str_or (run_id req) (gen_run_id u))) as [->|Hne].
    + right; left. split; [reflexivity|apply lookup_insert_eq].
    + left. apply lookup_insert_ne. congruence.
  - unfold thread_write in Hstep.
    destruct (threads s !! i) as [[r [[|[p f] ws] out|]]|]; try discriminate.
    injection Hstep as <-. left; reflexivity.
  - unfold thread_finish in Hstep.
    destruct (threads s) as [|t0 [|t1 rest]] eqn:Hts; [|destruct i; [|destruct i]|contradiction];
      simpl in Hstep; try discriminate.
    destruct t0 as [r [[|[p f] ws] out|]]; try discriminate.
    injection Hstep as <-. simpl in Hth. destruct Hth as [_ [Hr _]]. simpl.
    destruct out as [m|[cls msg|cls msg]]; [| |left; reflexivity];
      (destruct (decide (k = r)) as [->|Hne];
       [right; right; split; [exact Hr|rewrite lookup_insert_eq; eexists; reflexivity]
       |left; apply lookup_insert_ne; congruence]).
  - unfold thread_release in Hstep.
    destruct (threads s !! i) as [[r [ws out|]]|]; try discriminate.
    injection Hstep as <-. left; reflexivity.
  - injection Hstep as <-. rewrite get_status_state. left; reflexivity.
Qed.

Lemma run_events_fresh (evs : list event) (s s' : State) (c : list string) (k : string) :
  Inv s -> run_events s evs = Some (s', c) -> ~ In k c -> runs s !! k = None ->
  runs s' !! k = None.
Proof.
  revert s c. induction evs as [|e rest IH]; intros s c HI Hrun Hk Hnone; simpl in Hrun.
  - injection Hrun as <- _. exact Hnone.
  - destruct (step s e) as [s1|] eqn:Hs; [|discriminate].
    destruct (run_events s1 rest) as [[s2 c2]|] eqn:Hr; [|discriminate].
    injection Hrun as <- <-.
    destruct (step_runs s s1 e k HI Hs) as [Heq|[[Hc _]|[Hsome _]]].
    + eapply IH; [eapply step_Inv; eassumption|exact Hr| |congruence].
      intros Hin. apply Hk. destruct (created_by s e); [right|]; exact Hin.
    + exfalso. apply Hk. rewrite Hc. left; reflexivity.
    + congruence.
Qed.

(** C6. In every reachable state, a status query for a run id that no
    admitted request ever created is answered with 404 ["Run <id> not
    found"], and the state is unchanged. *)
Theorem status_unknown_run_not_found (evs : list event) (s : State)
    (created : list string) (rid : string)
    (Hrun : run_events init_state evs = Some (s, created))
    (Hnew : ~ In rid created) :
  get_status s rid = (HErr 404 ("Run " ++ rid ++ " not found"), s).
Proof.
  unfold get_status.
  rewrite (run_events_fresh evs init_state s created rid Inv_init Hrun Hnew (lookup_empty rid)).
  reflexivity.
Qed.

(** C8 (as amended). Take a reachable state and any later run of the
    process. A record in [_runs] is still present, under the same key,
    in every later state: nothing deletes from [_runs]. A record that is
    no longer [training] (so [done] or [failed]) can only have been
    replaced if some admitted start-training request of that run assigned
    the same id again. *)
Theorem registry_records_persist (pre post : list event) (s s' : State)
    (c1 c2 : list string) (k : string) (info : RunInfo)
    (Hpre : run_events init_state pre = Some (s, c1))
    (Hpost : run_events s post = Some (s', c2))
    (Hk : runs s !! k = Some info) :
  (exists info', runs s' !! k = Some info') /\
  (status info <> "training" -> runs s' !! k <> Some info -> In k c2).
Proof.
  pose proof (reachable_Inv pre s c1 Hpre) as HI. clear Hpre c1.
  revert s c2 info HI Hpost Hk.
  induction post as [|e rest IH]; intros s c2 info HI Hpost Hk; simpl in Hpost.
  - injection Hpost as <- <-. split; [eexists; exact Hk|].
    intros _ Hne. contradiction.
  - destruct (step s e) as [s1|] eqn:Hs; [|discriminate].
    destruct (run_events s1 rest) as [[s2 c3]|] eqn:Hr; [|discriminate].
    injection Hpost as <- <-.
    pose proof (step_Inv s s1 e HI Hs) as HI1.
    assert (Hsub : forall x, In x c3 -> In x (match created_by s e with
                                               | Some rid => rid :: c3
                                               | None => c3 end)).
    { intros x Hx. destruct (created_by s e); [right|]; exact Hx. }
    destruct (step_runs s s1 e k HI Hs) as [Heq|[[Hc Hnew]|[Htr [i1 Hi1]]]].
    + rewrite Hk in Heq.
      destruct (IH s1 c3 info HI1 Hr Heq) as [Hex Hmod].
      split; [exact Hex|]. intros Hst Hne. apply Hsub, Hmod; assumption.
    + destruct (IH s1 c3 training_info HI1 Hr Hnew) as [Hex _].
      split; [exact Hex|]. intros _ _. rewrite Hc. left; reflexivity.
    + destruct (IH s1 c3 i1 HI1 Hr Hi1) as [Hex _].
      split; [exact Hex|]. rewrite Hk in Htr. injection Htr as ->.
      intros Hst. exfalso. apply Hst. reflexivity.
Qed.

End RegistryClaims.

Module StatusRaceProofs.
Import Sidecar Invariants RegistryProofs RegistryClaims.






End StatusRaceProofs.

Module StatusRace.
Import Sidecar Invariants Examples.

(** C9 (code bug). [GET /status] takes no lock, and for a run in
    [training] it iterates over [_runs.values()]. Run ["a"] has just been
    admitted; queried alone, the handler answers its record
    [{"status": "training", "metrics": {}}] as a registry lookup would.
    But if, while the query loops, run ["a"] ends and a start-training
    request for ["b"] is admitted, the next [next()] finds [_runs] grown
    and raises [RuntimeError]: the query is answered 500
    ["Internal Server Error"] instead of the record it had read. *)
Theorem status_query_fails_on_concurrent_start :
  run_events init_state trace_start_a = Some (st_after trace_start_a, ["a"]) /\
  runs (st_after trace_start_a) !! "a" = Some training_info /\
  get_status_conc (st_after trace_start_a) "a" [] =
    Some (HOk training_info, st_after trace_start_a) /\
  match get_status_conc (st_after trace_start_a) "a" race_a_then_b with
  | Some (answer, s') =>
      answer = HErr 500 "Internal Server Error" /\
      runs s' !! "a" = Some (done_info metrics_ok) /\
      runs s' !! "b" = Some training_info /\ current_run s' = Some "b"
  | None => False
  end.
Proof.
  split; [vm_compute; reflexivity|split; [vm_compute; reflexivity|split]].
  - vm_compute. reflexivity.
  - vm_compute. repeat split.
Qed.

End StatusRace.

Module StatusExtras.
Import Sidecar Invariants RegistryProofs StatusRaceProofs.


End StatusExtras.

Module WorkerClaims.
Import Sidecar Invariants.

(** C2 (as amended). Once [run_training] has ended (returned or raised),
    the worker thread's [try]/[except Exception]/[finally] runs to the end:
    the record becomes [done] with the returned metrics, or [failed] with
    [str(e)] for an exception derived from [Exception]; a [BaseException]
    outside [Exception] leaves the record as it was. On every one of these
    paths the [finally] clause clears the active slot, after which the next
    start-training request is admitted. *)
Theorem worker_terminal_release (s : State) (i : nat) (r : string)
    (out : Result metrics) (req : TrainRequest) (u : Z) (env : Train.train_env)
    (Ht : threads s !! i = Some {| t_run_id := r; t_phase := Running [] out |}) :
  exists s1 s2,
    thread_finish s i = Some s1 /\ thread_release s1 i = Some s2 /\
    runs s1 !! r = match out with
                   | Ok m => Some (done_info m)
                   | Raise (Exc _ msg) => Some (failed_info msg)
                   | Raise (BaseExc _ _) => runs s !! r
                   end /\
    runs s2 = runs s1 /\ current_run s2 = None /\
    fst (start_training s2 req u env) = HOk (opt_str_or (run_id req) (gen_run_id u), "training").
Proof.
  unfold thread_finish. rewrite Ht.
  pose proof (lookup_lt_Some _ _ _ Ht) as Hlt.
  eexists; eexists. split; [reflexivity|]. split.
  { unfold thread_release. simpl. rewrite list_lookup_insert_eq by exact Hlt. reflexivity. }
  split; [|split; [reflexivity|split; [reflexivity|]]].
  - destruct out as [m|[cls msg|cls msg]]; simpl; rewrite ?lookup_insert_eq; reflexivity.
  - unfold start_training. simpl.
    destruct (Train.run_training (output_dir req) env). reflexivity.
Qed.

End WorkerClaims.

Module Scenarios.
Import Sidecar Invariants Examples.

Lemma worker_terminal_release_witness :
  threads (st_after trace_exit) !! 0 =
    Some {| t_run_id := "abc123"; t_phase := Running [] (Raise (BaseExc "SystemExit" "1")) |} /\
  exists s1 s2,
    thread_finish (st_after trace_exit) 0 = Some s1 /\ thread_release s1 0 = Some s2 /\
    runs s1 !! "abc123" = runs (st_after trace_exit) !! "abc123" /\
    runs s2 = runs s1 /\ current_run s2 = None /\
    fst (start_training s2 (req_with None) 7 env_ok) = HOk (gen_run_id 7, "training").
Proof.
  assert (Ht : threads (st_after trace_exit) !! 0 =
    Some {| t_run_id := "abc123"; t_phase := Running [] (Raise (BaseExc "SystemExit" "1")) |})
    by (vm_compute; reflexivity).
  split; [exact Ht|].
  exact (WorkerClaims.worker_terminal_release (st_after trace_exit) 0 "abc123"
           (Raise (BaseExc "SystemExit" "1")) (req_with None) 7 env_ok Ht).
Defined.

(** C2 counterexample: the model loader raises [SystemExit]; the worker
    ends and the slot is free, but the run's record still says
    [training], never [failed]. *)
Lemma worker_system_exit_not_failed :
  fst (get_status (st_after (trace_exit ++ [EFinish 0; ERelease 0])) "abc123")
    = HOk training_info /\
  current_run (st_after (trace_exit ++ [EFinish 0; ERelease 0])) = None.
Proof. split; vm_compute; reflexivity. Qed.

(** C3. The spec's scenario: run ["abc123"] is started and the trainer
    reports [{loss: 0.8, step: 1, max_steps: 10}]. The callback writes a
    snapshot with [progress = 0.1] to [out/metrics.json], but the status
    query answers the record as created, with empty metrics and no
    progress. *)
Theorem status_ignores_reported_progress :
  match fs (st_after trace_progress) !! "out/metrics.json" with
  | Some (Train.FMetrics m) => mget m "progress" = Some (MQ (1000 # 10000))
  | _ => False
  end /\
  fst (get_status (st_after trace_progress) "abc123") = HOk training_info /\
  rmetrics training_info = Some [].
Proof. split; [|split]; vm_compute; reflexivity. Qed.

Lemma status_unknown_run_not_found_witness :
  run_events init_state trace_done = Some (st_after trace_done, ["abc123"]) /\
  ~ In "zzz" ["abc123"] /\
  get_status (st_after trace_done) "zzz" = (HErr 404 ("Run " ++ "zzz" ++ " not found"), st_after trace_done).
Proof.
  assert (Hrun : run_events init_state trace_done = Some (st_after trace_done, ["abc123"]))
    by (vm_compute; reflexivity).
  assert (Hnew : ~ In "zzz" ["abc123"]) by (simpl; intros [H|H]; [discriminate|exact H]).
  split; [exact Hrun|split; [exact Hnew|]].
  exact (RegistryClaims.status_unknown_run_not_found trace_done (st_after trace_done)
           ["abc123"] "zzz" Hrun Hnew).
Defined.

Lemma registry_records_persist_witness :
  run_events init_state trace_done = Some (st_after trace_done, ["abc123"]) /\
  run_events (st_after trace_done) [EStatus "abc123"] = Some (st_after trace_done, []) /\
  runs (st_after trace_done) !! "abc123" = Some (done_info metrics_ok) /\
  (exists info', runs (st_after trace_done) !! "abc123" = Some info') /\
  (status (done_info metrics_ok) <> "training" ->
   runs (st_after trace_done) !! "abc123" <> Some (done_info metrics_ok) -> In "abc123" []).
Proof.
  assert (Hpre : run_events init_state trace_done = Some (st_after trace_done, ["abc123"]))
    by (vm_compute; reflexivity).
  assert (Hpost : run_events (st_after trace_done) [EStatus "abc123"] = Some (st_after trace_done, []))
    by (vm_compute; reflexivity).
  assert (Hk : runs (st_after trace_done) !! "abc123" = Some (done_info metrics_ok))
    by (vm_compute; reflexivity).
  split; [exact Hpre|split; [exact Hpost|split; [exact Hk|]]].
  exact (RegistryClaims.registry_records_persist trace_done [EStatus "abc123"]
           (st_after trace_done) (st_after trace_done) ["abc123"] [] "abc123"
           (done_info metrics_ok) Hpre Hpost Hk).
Defined.

(** C8 counterexample: run ["abc123"] is [done]; a new start-training
    request with the same caller-supplied id is admitted and replaces the
    finished record with a fresh [training] record. *)
Lemma registry_done_record_overwritten :
  runs (st_after trace_done) !! "abc123" = Some (done_info metrics_ok) /\
  runs (st_after (trace_done ++ [EStart (req_with (Some "abc123")) 1 env_ok])) !! "abc123"
    = Some training_info.
Proof. split; vm_compute; reflexivity. Qed.

End Scenarios.

Module ProgressMonotone.
Import Train.
Local Open Scope Q_scope.
Local Open Scope list_scope.

Lemma round_half_even_bounds (q : Q) :
  (Qfloor q <= round_half_even q <= Qfloor q + 1)%Z.
Proof.
  unfold round_half_even. cbv zeta.
  destruct (Qcompare _ _); try destruct (Z.even _); lia.
Qed.

Lemma round_half_even_mono (q1 q2 : Q) :
  q1 <= q2 -> (round_half_even q1 <= round_half_even q2)%Z.
Proof.
  intros H. pose proof (Qfloor_resp_le _ _ H) as Hf.
  destruct (Z_le_lt_eq_dec _ _ Hf) as [Hlt|Heq].
  - pose proof (round_half_even_bounds q1). pose proof (round_half_even_bounds q2). lia.
  - unfold round_half_even. cbv zeta. rewrite <- Heq. set (f := Qfloor q1).
    assert (Hr : q1 - inject_Z f <= q2 - inject_Z f)
      by (apply Qplus_le_compat; [exact H|apply Qle_refl]).
    destruct (Qcompare_spec (q1 - inject_Z f) (1 # 2)) as [E1|L1|G1];
      destruct (Qcompare_spec (q2 - inject_Z f) (1 # 2)) as [E2|L2|G2];
      try (destruct (Z.even f); lia); exfalso; apply (Qle_not_lt _ _ Hr).
    + rewrite E1. exact L2.
    + rewrite E2. exact G1.
    + apply Qlt_trans with (1 # 2); assumption.
Qed.

Lemma round4_mono (q1 q2 : Q) : q1 <= q2 -> round4 q1 <= round4 q2.
Proof.
  intros H.
  assert (Hr : (round_half_even (q1 * inject_Z 10000) <= round_half_even (q2 * inject_Z 10000))%Z)
    by (apply round_half_even_mono, Qmult_le_compat_r; [exact H|discriminate]).
  unfold round4, Qle; simpl. nia.
Qed.

Lemma round4_le_1 (q : Q) : q <= 1 -> round4 q <= 1.
Proof.
  intros H. apply Qle_trans with (round4 1); [apply round4_mono, H|].
  vm_compute. discriminate.
Qed.

(** The progress an [on_log] call with logs records. *)
Lemma snapshot_progress_value (ev : log_event) (logs : metrics) :
  ev_logs ev = Some logs ->
  snapshot_progress ev = Some (callback_progress (ev_state ev)).
Proof.
  intros Hl. unfold snapshot_progress, on_log, callback_progress.
  rewrite Hl, TrainLemmas.on_log_progress_eq.
  simpl. destruct (max_steps (ev_state ev) >? 0)%Z; reflexivity.
Qed.

Lemma snapshot_progress_none (ev : log_event) :
  ev_logs ev = None -> snapshot_progress ev = None.
Proof. intros Hl. unfold snapshot_progress, on_log. rewrite Hl. reflexivity. Qed.

Lemma run_callbacks_trace (mp : string) (evs : list log_event) :
  snd (run_callbacks mp evs) = Ok tt /\
  progress_trace (fst (run_callbacks mp evs)) = omap snapshot_progress evs.
Proof.
  induction evs as [|ev rest [IHr IHt]]; [split; reflexivity|].
  simpl. destruct (TrainLemmas.on_log_ok ev) as [r Hr]. rewrite Hr.
  destruct r as [m|].
  - destruct (run_callbacks mp rest) as [ws res] eqn:Hrc. simpl in *.
    split; [exact IHr|].
    unfold snapshot_progress at 1. rewrite Hr.
    destruct (mget m "progress") as [v|]; [destruct (mval_Q v)|]; rewrite ?IHt; reflexivity.
  - split; [exact IHr|]. unfold snapshot_progress at 1. rewrite Hr. exact IHt.
Qed.

Lemma progress_trace_app (l1 l2 : list (string * file)) :
  progress_trace (app l1 l2) = progress_trace l1 ++ progress_trace l2.
Proof.
  induction l1 as [|[p f] l1 IH]; [reflexivity|].
  destruct f as [m|st]; simpl; [|exact IH].
  destruct (match mget m "progress" with Some v => mval_Q v | None => None end);
    rewrite IH; reflexivity.
Qed.

(** The trace of a whole [run_training] call: nothing, the callback
    snapshots, or the callback snapshots followed by the final [1.0]. *)
Lemma run_training_trace (d : string) (env : train_env) :
  let T := omap snapshot_progress (te_events env) in
  progress_trace (fst (run_training d env)) = [] \/
  progress_trace (fst (run_training d env)) = T \/
  progress_trace (fst (run_training d env)) = T ++ [1].
Proof.
  cbv zeta. unfold run_training.
  destruct (run_callbacks_trace (path_join d "metrics.json") (te_events env)) as [Hok Htr].
  destruct (te_makedirs env); [|left; reflexivity].
  destruct (bind (te_load_model env) _) as [dataset|e]; [|left; reflexivity].
  destruct (run_callbacks (path_join d "metrics.json") (te_events env)) as [w1 r1].
  simpl in Hok, Htr. subst r1.
  destruct (te_train env) as [loss|e]; simpl; [|right; left; exact Htr].
  destruct (te_save env); simpl; rewrite progress_trace_app; simpl; rewrite Htr;
    [right; right; reflexivity|right; left; apply app_nil_r].
Qed.

Lemma snapshot_progress_some (ev : log_event) (q : Q) :
  snapshot_progress ev = Some q -> q = callback_progress (ev_state ev).
Proof.
  destruct (ev_logs ev) as [logs|] eqn:Hl.
  - rewrite (snapshot_progress_value ev logs Hl). congruence.
  - rewrite (snapshot_progress_none ev Hl). discriminate.
Qed.

Lemma callback_progress_mono (M : Z) (st1 st2 : trainer_state) :
  max_steps st1 = M -> max_steps st2 = M ->
  (0 <= global_step st1)%Z -> (global_step st1 <= global_step st2)%Z ->
  callback_progress st1 <= callback_progress st2.
Proof.
  intros H1 H2 H0 Hle. unfold callback_progress. rewrite H1, H2.
  destruct (M >? 0)%Z eqn:HM; [|apply Qle_refl].
  apply Z.gtb_lt in HM. apply round4_mono.
  unfold Qdiv. apply Qmult_le_compat_r.
  - rewrite <- Zle_Qle. exact Hle.
  - apply Qinv_le_0_compat. change 0 with (inject_Z 0). rewrite <- Zle_Qle. lia.
Qed.

Lemma callback_progress_le_1 (M : Z) (st : trainer_state) :
  max_steps st = M -> (global_step st <= M)%Z -> callback_progress st <= 1.
Proof.
  intros H1 Hle. unfold callback_progress. rewrite H1.
  destruct (M >? 0)%Z eqn:HM; [|discriminate].
  apply Z.gtb_lt in HM. apply round4_le_1.
  apply Qle_shift_div_r.
  - change 0 with (inject_Z 0). rewrite <- Zlt_Qlt. exact HM.
  - rewrite Qmult_1_l. rewrite <- Zle_Qle. exact Hle.
Qed.

Lemma Forall_omap_intro {A B} (f : A -> option B) (P : B -> Prop) (l : list A) :
  Forall (fun a => forall b, f a = Some b -> P b) l -> Forall P (omap f l).
Proof.
  induction 1 as [|a l Ha _ IH]; simpl; [constructor|].
  destruct (f a) as [b|] eqn:Hf; [constructor; [apply Ha; reflexivity|]|]; exact IH.
Qed.

(** The snapshots written by the callback over one [trainer.train()]
    call, under a trainer whose step never decreases, whose [max_steps]
    is fixed and whose step stays within [0 .. max_steps]. *)
Lemma callback_trace_monotone (evs : list log_event) (M : Z) :
  never_decreases (fun e1 e2 => (global_step (ev_state e1) <= global_step (ev_state e2))%Z) evs ->
  Forall (fun ev => max_steps (ev_state ev) = M /\
                    (0 <= global_step (ev_state ev) <= M)%Z) evs ->
  never_decreases Qle (omap snapshot_progress evs) /\
  Forall (fun q => q <= 1) (omap snapshot_progress evs).
Proof.
  induction evs as [|ev rest IH]; intros Hnd Hb; [split; [exact I|constructor]|].
  destruct Hnd as [Hfirst Hnd]. inversion Hb as [|? ? [Hm [H0 HM]] Hb']; subst.
  destruct (IH Hnd Hb') as [IHnd IHle].
  simpl. destruct (snapshot_progress ev) as [q|] eqn:Hs; [|split; assumption].
  apply snapshot_progress_some in Hs. subst q.
  split; [split; [|exact IHnd]|constructor; [eapply callback_progress_le_1; eauto|exact IHle]].
  apply Forall_omap_intro.
  eapply Forall_impl; [apply Forall_and; split; [exact Hfirst|exact Hb']|].
  intros ev' [Hst [Hm' _]] b Hb2. apply snapshot_progress_some in Hb2. subst b.
  eapply callback_progress_mono; eauto.
Qed.

Lemma never_decreases_snoc_1 (l : list Q) :
  never_decreases Qle l -> Forall (fun q => q <= 1) l -> never_decreases Qle (l ++ [1]).
Proof.
  induction l as [|x l IH]; intros Hnd Hle; simpl.
  - split; [constructor|exact I].
  - destruct Hnd as [Hx Hnd]. inversion Hle; subst.
    split; [apply Forall_app; split; [exact Hx|constructor; [assumption|constructor]]|].
    apply IH; assumption.
Qed.

End ProgressMonotone.

Module ProgressClaims.
Import Train Sidecar Invariants.
Local Open Scope Q_scope.

(** C4 (as amended). Within one [run_training] call, the progress values
    of the snapshots written to [metrics.json] (one per [on_log] call with
    logs, then the final metrics) never decrease and stay at most [1.0],
    provided the trainer's step never decreases, its [max_steps] stays the
    same and its step stays within [0 .. max_steps]. The metrics returned
    by a successful call carry [progress = 1.0], and in every reachable
    state a [done] record of [_runs] carries [progress = 1.0]. *)
Theorem progress_never_decreases_within_run (d : string) (env : train_env) (M : Z)
    (Hsteps : never_decreases
                (fun e1 e2 => (global_step (ev_state e1) <= global_step (ev_state e2))%Z)
                (te_events env))
    (Hbounds : Forall (fun ev => max_steps (ev_state ev) = M /\
                                 (0 <= global_step (ev_state ev) <= M)%Z) (te_events env)) :
  never_decreases Qle (progress_trace (fst (run_training d env))) /\
  Forall (fun q => q <= 1) (progress_trace (fst (run_training d env))) /\
  (forall m, snd (run_training d env) = Ok m -> mget m "progress" = Some (MQ 1)) /\
  (forall (evs : list event) (s : State) (c : list string) (k : string) (info : RunInfo),
     run_events init_state evs = Some (s, c) -> runs s !! k = Some info ->
     status info = "done" ->
     exists m, rmetrics info = Some m /\ mget m "progress" = Some (MQ 1)).
Proof.
  destruct (ProgressMonotone.callback_trace_monotone _ M Hsteps Hbounds) as [Hnd Hle].
  split; [|split; [|split]].
  - destruct (ProgressMonotone.run_training_trace d env) as [H|[H|H]]; rewrite H;
      [exact I|exact Hnd|apply ProgressMonotone.never_decreases_snoc_1; assumption].
  - destruct (ProgressMonotone.run_training_trace d env) as [H|[H|H]]; rewrite H;
      [constructor|exact Hle|].
    apply Forall_app; split; [exact Hle|constructor; [apply Qle_refl|constructor]].
  - apply RegistryProofs.run_training_progress_one.
  - intros evs s c k info Hrun Hk Hst.
    destruct (RegistryProofs.reachable_Inv evs s c Hrun) as [Hrec _].
    destruct (Hrec k info Hk) as [->|[[m [-> Hm]]|[e ->]]]; try discriminate.
    exists m. split; [reflexivity|exact Hm].
Qed.

End ProgressClaims.

Module ProgressScenarios.
Import Train Sidecar Examples.
Local Open Scope Q_scope.

Lemma progress_never_decreases_within_run_witness :
  never_decreases (fun e1 e2 => (global_step (ev_state e1) <= global_step (ev_state e2))%Z)
    (te_events env_ok) /\
  Forall (fun ev => max_steps (ev_state ev) = 10%Z /\ (0 <= global_step (ev_state ev) <= 10)%Z)
    (te_events env_ok) /\
  never_decreases Qle (progress_trace (fst (run_training "out" env_ok))) /\
  Forall (fun q => q <= 1) (progress_trace (fst (run_training "out" env_ok))) /\
  (forall m, snd (run_training "out" env_ok) = Ok m -> mget m "progress" = Some (MQ 1)) /\
  (forall (evs : list event) (s : State) (c : list string) (k : string) (info : RunInfo),
     run_events init_state evs = Some (s, c) -> runs s !! k = Some info ->
     status info = "done" ->
     exists m, rmetrics info = Some m /\ mget m "progress" = Some (MQ 1)).
Proof.
  assert (Hs : never_decreases
                 (fun e1 e2 => (global_step (ev_state e1) <= global_step (ev_state e2))%Z)
                 (te_events env_ok)) by (simpl; split; [constructor|exact I]).
  assert (Hb : Forall (fun ev => max_steps (ev_state ev) = 10%Z /\
                                 (0 <= global_step (ev_state ev) <= 10)%Z) (te_events env_ok))
    by (simpl; constructor; [simpl; split; [reflexivity|lia]|constructor]).
  split; [exact Hs|split; [exact Hb|]].
  exact (ProgressClaims.progress_never_decreases_within_run "out" env_ok 10 Hs Hb).
Defined.

(** C4 counterexample: the trainer's step goes from 5 to 6, so it never
    decreases, but [max_steps] goes from 10 to 20; the recorded progress
    goes from 0.5 down to 0.3. *)
Lemma progress_decreases_when_max_steps_changes :
  never_decreases (fun e1 e2 => (global_step (ev_state e1) <= global_step (ev_state e2))%Z)
    (te_events env_max_change) /\
  progress_trace (fst (run_training "out" env_max_change)) = [5000 # 10000; 3000 # 10000; 1] /\
  ~ never_decreases Qle (progress_trace (fst (run_training "out" env_max_change))).
Proof.
  assert (Htr : progress_trace (fst (run_training "out" env_max_change))
                = [5000 # 10000; 3000 # 10000; 1]) by (vm_compute; reflexivity).
  split; [|split; [exact Htr|]].
  - simpl. split; [constructor; [cbn; lia|constructor]|split; [constructor|exact I]].
  - rewrite Htr. simpl. intros [Hf _]. inversion Hf as [|? ? Hq _].
    vm_compute in Hq. apply Hq. reflexivity.
Qed.

End ProgressScenarios.

Module ConvertProofs.
Import Convert.


Lemma last_slash_no_slash (s : string) (i : nat) (acc : option nat) :
  all_chars (fun c => negb (Ascii.eqb c "/"%char)) s = true -> last_slash s i acc = acc.
Proof.
  revert i acc. induction s as [|c s IH]; intros i acc H; [reflexivity|].
  change (negb (Ascii.eqb c "/"%char) && all_chars (fun c => negb (Ascii.eqb c "/"%char)) s
          = true) in H.
  apply andb_true_iff in H as [Hc Hs]. apply negb_true_iff in Hc.
  simpl. rewrite Hc. apply IH, Hs.
Qed.


End ConvertProofs.

Module ConvertScenarios.
Import Convert Examples.

(** C7 (code bug). On a machine where the conversion script is installed
    at [/usr/local/bin/convert_hf_to_gguf.py] and every conversion exits
    with status 0, a request whose output path is the file name
    ["x.gguf"] is not converted: [os.path.dirname("x.gguf")] is [""], and
    [os.makedirs("", exist_ok=True)] raises [FileNotFoundError] even though
    the file would go to the existing working directory. The handler
    answers 500 with that error and starts no subprocess, while the same
    request with the output path ["/models/x.gguf"] is converted. *)
Theorem convert_fails_before_subprocess :
  home conv_env_ok = Ok "/home/user" /\
  find_first (path_exists conv_env_ok) (search_paths "/home/user")
    = Ok (Some "/usr/local/bin/convert_hf_to_gguf.py") /\
  (forall c t, subprocess_run conv_env_ok c t = Completed 0 "" "") /\
  convert_to_gguf conv_env_ok conv_req_bare
    = (Ok (HErr 500 "[Errno 2] No such file or directory: ''"), []) /\
  convert_to_gguf conv_env_ok conv_req =
    (Ok (HOk ("ok", "/models/x.gguf")),
     [["python3"; "/usr/local/bin/convert_hf_to_gguf.py"; "/merged"; "--outfile";
       "/models/x.gguf"; "--outtype"; "q4_k_m"]]).
Proof.
  split; [reflexivity|].
  split; [vm_compute; reflexivity|split; [reflexivity|split; vm_compute; reflexivity]].
Qed.

End ConvertScenarios.

Module DatasetProofs.
Import Dataset.

Lemma str_app_nil_r (s : string) : s ++ "" = s.
Proof. induction s as [|c s IH]; [reflexivity|exact (f_equal (String c) IH)]. Qed.

Lemma str_app_assoc (a b c : string) : a ++ (b ++ c) = (a ++ b) ++ c.
Proof. induction a as [|x a IH]; [reflexivity|exact (f_equal (String x) IH)]. Qed.

Lemma concat_empty_cons (x : string) (l : list string) :
  String.concat "" (x :: l) = x ++ String.concat "" l.
Proof. destruct l as [|y l]; simpl; [symmetry; apply str_app_nil_r|reflexivity]. Qed.

Lemma spec_sample_text_cons (m : json) (ms : list json) :
  spec_sample_text (m :: ms) = default "" (spec_segment m) ++ spec_sample_text ms.
Proof.
  unfold spec_sample_text. simpl. destruct (spec_segment m) as [x|]; simpl;
    [apply concat_empty_cons|reflexivity].
Qed.

(** One readable message appends its role-tagged segment, or nothing. *)
Lemma msg_text_spec (m : json) :
  readable_msg m -> msg_text m = Ok (default "" (spec_segment m)).
Proof.
  intros (kvs & r & c & -> & Hr & Hc).
  unfold msg_text, spec_segment. simpl. rewrite Hr, Hc. simpl.
  destruct r as [| | |r| |]; try reflexivity.
  unfold tagged. cbn [existsb orb].
  destruct (String.eqb_spec r "system") as [->|Hs]; [reflexivity|].
  destruct (String.eqb_spec r "user") as [->|Hu]; [reflexivity|].
  destruct (String.eqb_spec r "assistant") as [->|Ha]; [reflexivity|].
  reflexivity.
Qed.



Lemma load_dataset_app_ok (pre : list string) (rest : list string) :
  Forall (fun l => exists t, line_text l = Ok t) pre ->
  exists ts', load_dataset_from_jsonl (app pre rest) =
              (let! r := load_dataset_from_jsonl rest in Ok (app ts' r)).
Proof.
  intros H. induction H as [|l pre [t Ht] Hpre [ts' IH]]; simpl.
  - exists []. destruct (load_dataset_from_jsonl rest); reflexivity.
  - exists (t :: ts'). rewrite Ht. simpl. rewrite IH.
    destruct (load_dataset_from_jsonl rest); reflexivity.
Qed.

End DatasetProofs.


Module StringFacts.

Lemma str_length_app (a b : string) :
  String.length (a ++ b) = String.length a + String.length b.
Proof. induction a as [|c a IH]; [reflexivity|exact (f_equal S IH)]. Qed.

Lemma all_chars_app (p : ascii -> bool) (a b : string) :
  all_chars p (a ++ b) = all_chars p a && all_chars p b.
Proof.
  induction a as [|c a IH]; [reflexivity|].
  change (p c && all_chars p (a ++ b) = (p c && all_chars p a) && all_chars p b).
  rewrite IH. apply andb_assoc.
Qed.

Lemma substring_app_prefix (a b : string) (k : nat) :
  substring 0 (String.length a + k) (a ++ b) = a ++ substring 0 k b.
Proof.
  induction a as [|c a IH]; [reflexivity|]. exact (f_equal (String c) IH).
Qed.

Lemma substring_0_0 (s : string) : substring 0 0 s = "".
Proof. destruct s; reflexivity. Qed.

Lemma str_app_cancel_l (a x y : string) : a ++ x = a ++ y -> x = y.
Proof.
  induction a as [|c a IH]; [exact id|].
  intros H. apply IH. change (String c (a ++ x) = String c (a ++ y)) in H.
  injection H. exact id.
Qed.

End StringFacts.

Module RunIdProofs.
Import StringFacts.

Lemma hex_width_length (w : nat) (n : Z) : String.length (hex_width w n) = w.
Proof.
  revert n. induction w as [|w IH]; intros n; [reflexivity|].
  simpl. rewrite str_length_app, IH. simpl. lia.
Qed.

Lemma hex_digit_hex (k : Z) : (0 <= k < 16)%Z -> is_lower_hex (hex_digit k) = true.
Proof.
  intros Hk.
  assert (exists m, k = Z.of_nat m /\ (m < 16)%nat) as [m [-> Hm]]
    by (exists (Z.to_nat k); lia).
  do 16 (destruct m as [|m]; [reflexivity|]). lia.
Qed.

Lemma hex_width_hex (w : nat) (n : Z) : all_chars is_lower_hex (hex_width w n) = true.
Proof.
  revert n. induction w as [|w IH]; intros n; [reflexivity|].
  change (hex_width (S w) n) with
    (hex_width w (Z.shiftr n 4) ++ String (hex_digit (Z.land n 15)) EmptyString).
  rewrite all_chars_app, IH, andb_true_l.
  change (is_lower_hex (hex_digit (Z.land n 15)) && true = true).
  rewrite hex_digit_hex; [reflexivity|].
  change 15%Z with (Z.ones 4). rewrite Z.land_ones by lia.
  apply Z.mod_pos_bound. reflexivity.
Qed.

(** The first twelve characters of the 8-4-4-4-12 form. *)
Lemma gen_run_id_eq (u : Z) :
  gen_run_id u = hex_width 8 (Z.shiftr u 96) ++ "-" ++
                 hex_width 3 (Z.shiftr (Z.land (Z.shiftr u 80) 65535) 4).
Proof.
  unfold gen_run_id, uuid_str.
  set (a := hex_width 8 (Z.shiftr u 96)).
  set (m := Z.land (Z.shiftr u 80) 65535).
  set (rest := "-" ++ hex_width 4 (Z.land (Z.shiftr u 64) 65535) ++ "-" ++
               hex_width 4 (Z.land (Z.shiftr u 48) 65535) ++ "-" ++
               hex_width 12 (Z.land u (Z.ones 48))).
  replace 12 with (String.length a + 4) by (unfold a; rewrite hex_width_length; reflexivity).
  rewrite substring_app_prefix. reflexivity.
Qed.

End RunIdProofs.

Module RunIdExtras.
Import StringFacts RunIdProofs.

(** A generated run id ([str(uuid.uuid4())[:12]]) is eight lower-case hex
    digits, a dash and three lower-case hex digits, and it depends only on
    the top 44 bits of the 128-bit UUID value: two UUIDs that agree there
    give the same id. *)
Theorem gen_run_id_format (u : Z) :
  (exists a b, gen_run_id u = a ++ "-" ++ b /\
               String.length a = 8 /\ String.length b = 3 /\
               all_chars is_lower_hex a = true /\ all_chars is_lower_hex b = true) /\
  (forall u', Z.shiftr u' 84 = Z.shiftr u 84 -> gen_run_id u' = gen_run_id u).
Proof.
  split.
  - rewrite gen_run_id_eq. do 2 eexists. split; [reflexivity|].
    rewrite !hex_width_length, !hex_width_hex. repeat split.
  - assert (Hk : forall v, gen_run_id v = hex_width 8 (Z.shiftr (Z.shiftr v 84) 12) ++ "-" ++
                                          hex_width 3 (Z.land (Z.shiftr v 84) 4095)).
    { intros v. rewrite gen_run_id_eq, Z.shiftr_shiftr by lia.
      rewrite Z.shiftr_land, Z.shiftr_shiftr by lia. reflexivity. }
    intros u' H. rewrite !Hk, H. reflexivity.
Qed.

End RunIdExtras.

Module DatasetExtraProofs.
Import Dataset StringFacts.

Lemma concat_msgs_app_readable (pre rest : list json) (t : string) :
  Forall readable_msg pre ->
  concat_msgs (app pre rest) t = concat_msgs rest (t ++ spec_sample_text pre).
Proof.
  intros H. revert t. induction H as [|m pre Hm Hpre IH]; intros t; simpl.
  - rewrite DatasetProofs.str_app_nil_r. reflexivity.
  - rewrite (DatasetProofs.msg_text_spec m Hm). simpl. rewrite IH.
    rewrite DatasetProofs.spec_sample_text_cons, DatasetProofs.str_app_assoc. reflexivity.
Qed.

Lemma line_text_eq (l : string) (kvs : list (string * json)) :
  json_loads (py_strip l) = Ok (JObj kvs) ->
  line_text l = (let! msgs := subscript (JObj kvs) "messages" in
                 let! items := py_iter msgs in concat_msgs items "").
Proof. intros H. unfold line_text. rewrite H. reflexivity. Qed.

Lemma concat_msgs_str_items (cs : list string) (t : string) :
  cs <> [] ->
  exists msg, concat_msgs (map JStr cs) t = Raise (Exc "TypeError" msg).
Proof. destruct cs; [congruence|]. intros _. eexists. reflexivity. Qed.

#[local] Arguments String.append : simpl nomatch.

Lemma lstrip_ws_app (w s : string) :
  all_chars py_isspace w = true -> lstrip (w ++ s) = lstrip s.
Proof.
  induction w as [|c w IH]; [reflexivity|].
  intros H. change (py_isspace c && all_chars py_isspace w = true) in H.
  apply andb_true_iff in H as [Hc Hw]. simpl. rewrite Hc. apply IH, Hw.
Qed.

Lemma lstrip_app_non_ws (l s : string) :
  all_chars py_isspace l = false -> lstrip (l ++ s) = lstrip l ++ s.
Proof.
  induction l as [|c l IH]; [discriminate|].
  intros H. change (py_isspace c && all_chars py_isspace l = false) in H.
  simpl. destruct (py_isspace c); [apply IH, H|reflexivity].
Qed.

Lemma lstrip_all_ws (w : string) : all_chars py_isspace w = true -> lstrip w = "".
Proof.
  intros H. rewrite <- (DatasetProofs.str_app_nil_r w), lstrip_ws_app by exact H.
  reflexivity.
Qed.

Lemma list_ascii_of_string_app (a b : string) :
  list_ascii_of_string (a ++ b) = app (list_ascii_of_string a) (list_ascii_of_string b).
Proof. induction a as [|c a IH]; [reflexivity|]. simpl. rewrite IH. reflexivity. Qed.

Lemma string_of_list_ascii_app (x y : list ascii) :
  string_of_list_ascii (app x y) = string_of_list_ascii x ++ string_of_list_ascii y.
Proof. induction x as [|c x IH]; [reflexivity|]. simpl. rewrite IH. reflexivity. Qed.

Lemma rev_str_app (a b : string) : rev_str (a ++ b) = rev_str b ++ rev_str a.
Proof.
  unfold rev_str. rewrite list_ascii_of_string_app, rev_app_distr.
  apply string_of_list_ascii_app.
Qed.

Lemma all_chars_rev_str (p : ascii -> bool) (s : string) :
  all_chars p (rev_str s) = all_chars p s.
Proof.
  unfold all_chars, rev_str. rewrite list_ascii_of_string_of_list_ascii.
  induction (list_ascii_of_string s) as [|c l IH]; [reflexivity|].
  simpl. rewrite forallb_app, IH. simpl. rewrite andb_true_r. apply andb_comm.
Qed.

Lemma py_strip_pad (w1 l w2 : string) :
  all_chars py_isspace w1 = true -> all_chars py_isspace w2 = true ->
  py_strip (w1 ++ l ++ w2) = py_strip l.
Proof.
  intros H1 H2. unfold py_strip. rewrite lstrip_ws_app by exact H1.
  destruct (all_chars py_isspace l) eqn:Hl.
  - rewrite (lstrip_all_ws (l ++ w2)) by (rewrite all_chars_app, Hl, H2; reflexivity).
    rewrite (lstrip_all_ws l Hl). reflexivity.
  - rewrite lstrip_app_non_ws by exact Hl. rewrite rev_str_app.
    rewrite lstrip_ws_app by (rewrite all_chars_rev_str; exact H2). reflexivity.
Qed.

Lemma load_dataset_length (lines : list string) (ts : list string) :
  load_dataset_from_jsonl lines = Ok ts -> length ts = length lines.
Proof.
  revert ts. induction lines as [|l lines IH]; intros ts; simpl.
  - intros [= <-]. reflexivity.
  - destruct (line_text l); [|discriminate]. simpl.
    destruct (load_dataset_from_jsonl lines) as [ts'|]; [|discriminate]. simpl.
    intros [= <-]. simpl. rewrite (IH ts' eq_refl). reflexivity.
Qed.

End DatasetExtraProofs.

Module DatasetRaiseProofs.
Import Dataset StringFacts DatasetExtraProofs.






(** The exception of the first line that gives no text is the one that
    escapes. *)
Lemma load_dataset_raise_first (lines : list string) (e : exn) :
  load_dataset_from_jsonl lines = Raise e <->
  exists pre l post ts, lines = app pre (l :: post) /\
    Forall2 (fun l t => line_text l = Ok t) pre ts /\ line_text l = Raise e.
Proof.
  induction lines as [|l lines IH]; simpl.
  - split; [discriminate|]. intros (pre & l & post & ts & Hl & _).
    destruct pre; discriminate.
  - destruct (line_text l) as [t|e'] eqn:Hl; simpl.
    + destruct (load_dataset_from_jsonl lines) as [ts'|e''] eqn:Hr; simpl.
      * split; [discriminate|]. intros (pre & l0 & post & ts & Hls & Hpre & He).
        destruct pre as [|l1 pre].
        -- injection Hls as <- _. congruence.
        -- injection Hls as <- Hls. inversion Hpre as [|? t1 ? ts1 Ht1 Hpre1]; subst.
           assert (Hx : @Ok (list string) ts' = Raise e)
             by (apply IH; exists pre, l0, post, ts1; repeat split; assumption).
           discriminate.
      * split.
        -- intros [= ->]. destruct (proj1 IH eq_refl) as (pre & l0 & post & ts & -> & Hpre & He).
           exists (l :: pre), l0, post, (t :: ts). split; [reflexivity|split; [|exact He]].
           constructor; assumption.
        -- intros (pre & l0 & post & ts & Hls & Hpre & He).
           destruct pre as [|l1 pre].
           ++ injection Hls as <- _. congruence.
           ++ injection Hls as <- Hls. inversion Hpre as [|? t1 ? ts1 Ht1 Hpre1]; subst.
              apply (proj2 IH). exists pre, l0, post, ts1. repeat split; assumption.
    + split.
      * intros [= ->]. exists [], l, lines, []. split; [reflexivity|split; [constructor|exact Hl]].
      * intros (pre & l0 & post & ts & Hls & Hpre & He).
        destruct pre as [|l1 pre].
        -- injection Hls as <- _. congruence.
        -- injection Hls as <- _. inversion Hpre; congruence.
Qed.

End DatasetRaiseProofs.

Module DatasetClaims.
Import Dataset DatasetRaiseProofs.


End DatasetClaims.

Module DatasetScenarios.
Import Dataset Examples.



End DatasetScenarios.

Module DatasetExtras.
Import Dataset StringFacts DatasetExtraProofs.

(** [load_dataset_from_jsonl] succeeds exactly when every line gives a
    text, and then the dataset holds one sample per line, the i-th sample
    being the text of the i-th line. It raises exactly the exception of
    the first line that gives no text, every earlier line having given
    one: that exception aborts the whole load. *)
Theorem load_dataset_samples_in_line_order (lines : list string) :
  (forall ts, load_dataset_from_jsonl lines = Ok ts <->
              Forall2 (fun l t => line_text l = Ok t) lines ts) /\
  (forall e, load_dataset_from_jsonl lines = Raise e <->
     exists pre l post ts, lines = app pre (l :: post) /\
       Forall2 (fun l t => line_text l = Ok t) pre ts /\ line_text l = Raise e).
Proof.
  split; [|intros e; apply DatasetRaiseProofs.load_dataset_raise_first].
  induction lines as [|l lines IH]; intros ts; simpl.
  - split.
    + intros [= <-]. constructor.
    + intros H. inversion H. reflexivity.
  - split.
    + destruct (line_text l) as [t|e] eqn:Hl; [|discriminate]. simpl.
      destruct (load_dataset_from_jsonl lines) as [ts'|e] eqn:Hr; [|discriminate]. simpl.
      intros [= <-]. constructor; [exact Hl|apply IH; reflexivity].
    + intros H. inversion H as [|l' t lines' ts' Hl Hr]; subst.
      rewrite Hl. simpl. apply IH in Hr. rewrite Hr. reflexivity.
Qed.

(** Whitespace around a line ([str.isspace] characters, such as the
    trailing ["\r\n"] of a CRLF file or indentation) does not change its
    text: the line is stripped before it is decoded. *)
Theorem line_text_ignores_surrounding_whitespace (w1 l w2 : string)
  (H1 : all_chars py_isspace w1 = true) (H2 : all_chars py_isspace w2 = true) :
  line_text (w1 ++ l ++ w2) = line_text l.
Proof. unfold line_text. rewrite py_strip_pad by assumption. reflexivity. Qed.

(** How a decoded line of the wrong shape fails: a value that is not an
    object raises [TypeError]; an object without ["messages"] raises
    [KeyError('messages')]; a ["messages"] that is a number, a boolean or
    [null] raises [TypeError]. A ["messages"] that is an object or a string
    is iterated as its keys or characters: empty, it gives the empty text;
    non-empty, its first item is a string and [msg["role"]] raises
    [TypeError]. *)
Theorem line_text_shape_errors (l : string) (v : json)
  (Hl : json_loads (py_strip l) = Ok v) :
  ((forall kvs, v <> JObj kvs) -> exists msg, line_text l = Raise (Exc "TypeError" msg)) /\
  (forall kvs, v = JObj kvs -> obj_lookup kvs "messages" = None ->
     line_text l = Raise (Exc "KeyError" "'messages'")) /\
  (forall kvs m, v = JObj kvs -> obj_lookup kvs "messages" = Some m ->
     (m = JNull \/ (exists b, m = JBool b) \/ (exists n, m = JNum n)) ->
     exists msg, line_text l = Raise (Exc "TypeError" msg)) /\
  (forall kvs mk, v = JObj kvs -> obj_lookup kvs "messages" = Some (JObj mk) ->
     (obj_keys mk = [] -> line_text l = Ok "") /\
     (obj_keys mk <> [] -> exists msg, line_text l = Raise (Exc "TypeError" msg))) /\
  (forall kvs s, v = JObj kvs -> obj_lookup kvs "messages" = Some (JStr s) ->
     (s = "" -> line_text l = Ok "") /\
     (s <> "" -> exists msg, line_text l = Raise (Exc "TypeError" msg))).
Proof.
  unfold line_text. rewrite Hl. simpl.
  split; [|split; [|split; [|split]]].
  - intros Hv. destruct v as [| | | | |kvs]; try (eexists; reflexivity).
    exfalso. exact (Hv kvs eq_refl).
  - intros kvs -> Hm. simpl. rewrite Hm. reflexivity.
  - intros kvs m -> Hm Hs. simpl. rewrite Hm.
    destruct Hs as [->|[[b ->]|[n ->]]]; eexists; reflexivity.
  - intros kvs mk -> Hm. simpl. rewrite Hm. simpl. split.
    + intros ->. reflexivity.
    + intros Hne. apply (concat_msgs_str_items (obj_keys mk) ""). exact Hne.
  - intros kvs s -> Hm. simpl. rewrite Hm. simpl. split.
    + intros ->. reflexivity.
    + intros Hne. destruct s as [|c s]; [congruence|]. eexists. reflexivity.
Qed.

(** Messages are read in order, [msg["role"]] before [msg["content"]],
    whatever the role: after readable messages, a message without
    ["role"] raises [KeyError('role')], one with a role but without
    ["content"] raises [KeyError('content')] (even for a role that would
    be skipped), and a message that is not an object raises [TypeError];
    the whole line then fails. *)
Theorem line_text_message_errors (l : string) (kvs : list (string * json))
  (pre : list json) (m : json) (post : list json)
  (Hl : json_loads (py_strip l) = Ok (JObj kvs))
  (Hm : obj_lookup kvs "messages" = Some (JArr (app pre (m :: post))))
  (Hpre : Forall readable_msg pre) :
  (forall mk, m = JObj mk -> obj_lookup mk "role" = None ->
     line_text l = Raise (Exc "KeyError" "'role'")) /\
  (forall mk r, m = JObj mk -> obj_lookup mk "role" = Some r ->
     obj_lookup mk "content" = None -> line_text l = Raise (Exc "KeyError" "'content'")) /\
  ((forall mk, m <> JObj mk) -> exists msg, line_text l = Raise (Exc "TypeError" msg)).
Proof.
  rewrite (line_text_eq l kvs Hl). simpl. rewrite Hm. simpl.
  rewrite (concat_msgs_app_readable pre (m :: post) "" Hpre). simpl.
  split; [|split].
  - intros mk -> Hr. unfold msg_text. simpl. rewrite Hr. reflexivity.
  - intros mk r -> Hr Hc. unfold msg_text. simpl. rewrite Hr. simpl. rewrite Hc. reflexivity.
  - intros Hm'. destruct m as [| | | | |mk]; try (eexists; reflexivity).
    exfalso. exact (Hm' mk eq_refl).
Qed.

End DatasetExtras.

Module TrainExtraProofs.
Import Train StringFacts.

Lemma fold_last_write (ws : list (string * file)) (p : string) (acc : option file) :
  fold_left (fun acc w => if String.eqb (fst w) p then Some (snd w) else acc) ws acc =
  match last_write ws p with Some f => Some f | None => acc end.
Proof.
  unfold last_write. revert acc.
  induction ws as [|w ws IH]; intros acc; [reflexivity|]. simpl.
  rewrite (IH (if String.eqb (fst w) p then Some (snd w) else acc)).
  rewrite (IH (if String.eqb (fst w) p then Some (snd w) else None)).
  destruct (fold_left _ ws None); [reflexivity|]. destruct (String.eqb (fst w) p); reflexivity.
Qed.

Lemma last_write_app (a b : list (string * file)) (p : string) :
  last_write (app a b) p = match last_write b p with Some f => Some f | None => last_write a p end.
Proof. unfold last_write at 1. rewrite fold_left_app. apply fold_last_write. Qed.

Lemma last_write_cons_last (a : list (string * file)) (p : string) (f : file) :
  last_write (app a [(p, f)]) p = Some f.
Proof.
  rewrite last_write_app. unfold last_write at 1. cbn [fold_left fst snd].
  rewrite String.eqb_refl. reflexivity.
Qed.

Lemma last_write_single (p : string) (f : file) : last_write [(p, f)] p = Some f.
Proof. exact (last_write_cons_last [] p f). Qed.

Lemma last_write_pair (a b p : string) (x y : file) :
  last_write [(a, x); (b, y)] p =
    if String.eqb b p then Some y else if String.eqb a p then Some x else None.
Proof.
  unfold last_write. simpl.
  destruct (String.eqb b p), (String.eqb a p); reflexivity.
Qed.

Lemma last_write_none (ws : list (string * file)) (p : string) :
  Forall (fun w => fst w <> p) ws -> last_write ws p = None.
Proof.
  intros H. unfold last_write. induction H as [|w ws Hw Hws IH]; [reflexivity|].
  simpl. apply String.eqb_neq in Hw. rewrite Hw. exact IH.
Qed.

Lemma path_join_inj_r (d x y : string) : path_join d x = path_join d y -> x = y.
Proof.
  unfold path_join. destruct (String.eqb d ""); [exact id|].
  destruct (String.eqb _ "/"); intros H; apply str_app_cancel_l in H; [exact H|].
  exact (str_app_cancel_l "/" x y H).
Qed.

Lemma metrics_status_paths_differ (d : string) :
  path_join d "metrics.json" <> path_join d "status.json".
Proof. intros H. apply path_join_inj_r in H. discriminate. Qed.

Lemma run_callbacks_writes (mp : string) (evs : list log_event) :
  snd (run_callbacks mp evs) = Ok tt /\
  length (fst (run_callbacks mp evs)) = logged_events evs /\
  Forall (fun w => fst w = mp /\
                   exists m, snd w = FMetrics m /\ map fst m = snapshot_keys)
         (fst (run_callbacks mp evs)).
Proof.
  unfold logged_events.
  induction evs as [|ev rest [IHr [IHl IHf]]]; [split; [reflexivity|split; [reflexivity|constructor]]|].
  simpl. unfold on_log. destruct (ev_logs ev) as [logs|] eqn:Hl.
  - rewrite TrainLemmas.on_log_progress_eq. simpl.
    destruct (run_callbacks mp rest) as [ws res]. simpl in *.
    rewrite filter_cons_True by (rewrite Hl; eexists; reflexivity). simpl.
    split; [exact IHr|split; [f_equal; exact IHl|]].
    constructor; [|exact IHf]. split; [reflexivity|]. eexists. split; reflexivity.
  - rewrite filter_cons_False by (rewrite Hl; intros [? ?]; discriminate).
    split; [exact IHr|split; [exact IHl|exact IHf]].
Qed.

Lemma status_writes_metrics (ws : list (string * file)) (p : string) :
  Forall (fun w => exists m, snd w = FMetrics m) ws -> status_writes ws p = [].
Proof.
  intros H. induction H as [|[q f] ws [m Hm] Hws IH]; [reflexivity|].
  simpl in Hm. subst f. exact IH.
Qed.

End TrainExtraProofs.

Module TrainShape.
Import Train StringFacts TrainExtraProofs.

(** The five ways [run_training] ends. *)
Lemma run_training_cases (d : string) (env : train_env) :
  let mp := path_join d "metrics.json" in
  let sp := path_join d "status.json" in
  let w1 := fst (run_callbacks mp (te_events env)) in
  (exists e, te_makedirs env = Raise e /\ run_training d env = ([], Raise e)) \/
  (te_makedirs env = Ok tt /\ exists e, training_prelude env = Raise e /\
     run_training d env = ([(sp, FStatus "training")], Raise e)) \/
  (te_makedirs env = Ok tt /\ (exists ds, training_prelude env = Ok ds) /\ exists e, te_train env = Raise e /\
     run_training d env = (app [(sp, FStatus "training")] w1, Raise e)) \/
  (te_makedirs env = Ok tt /\ (exists ds, training_prelude env = Ok ds) /\
   (exists loss, te_train env = Ok loss) /\ exists e, te_save env = Raise e /\
     run_training d env = (app [(sp, FStatus "training")] (app w1 [(sp, FStatus "done")]), Raise e)) \/
  (te_makedirs env = Ok tt /\ exists ds loss, training_prelude env = Ok ds /\ te_train env = Ok loss /\
     te_save env = Ok tt /\
     let m := final_metrics loss (te_elapsed env) (length ds) in
     run_training d env =
       (app [(sp, FStatus "training")]
          (app w1 (app [(sp, FStatus "done")] [(mp, FMetrics m); (sp, FStatus "done")])), Ok m)).
Proof.
  cbv zeta. unfold run_training.
  destruct (run_callbacks_writes (path_join d "metrics.json") (te_events env)) as [Hr _].
  destruct (te_makedirs env) as [[]|e] eqn:Hmk; [|left; eexists; split; reflexivity].
  right. change (let! _ := te_load_model env in _) with (training_prelude env).
  destruct (training_prelude env) as [ds|e] eqn:Hp; [|left; split; [reflexivity|eexists; split; reflexivity]].
  right. destruct (run_callbacks (path_join d "metrics.json") (te_events env)) as [w1 r1].
  simpl in Hr |- *. subst r1.
  destruct (te_train env) as [loss|e] eqn:Ht.
  2:{ left. split; [reflexivity|split; [eexists; reflexivity|eexists; split; reflexivity]]. }
  right. destruct (te_save env) as [[]|e] eqn:Hs.
  - right. split; [reflexivity|]. exists ds, loss. repeat split.
  - left. split; [reflexivity|split; [eexists; reflexivity|split; [eexists; reflexivity|]]].
    eexists; split; reflexivity.
Qed.

Lemma status_writes_app (a b : list (string * file)) (p : string) :
  status_writes (app a b) p = app (status_writes a p) (status_writes b p).
Proof. apply omap_app. Qed.

Lemma status_writes_status (p : string) (st : string) :
  status_writes [(p, FStatus st)] p = [st].
Proof. unfold status_writes. cbn [omap list_omap]. rewrite String.eqb_refl. reflexivity. Qed.

Lemma status_writes_metrics1 (q p : string) (m : metrics) :
  status_writes [(q, FMetrics m)] p = [].
Proof. reflexivity. Qed.

Lemma callbacks_status_writes (mp p : string) (evs : list log_event) :
  status_writes (fst (run_callbacks mp evs)) p = [].
Proof.
  apply status_writes_metrics.
  destruct (run_callbacks_writes mp evs) as [_ [_ Hf]].
  eapply Forall_impl; [exact Hf|]. intros w [_ [m [Hm _]]]. exists m. exact Hm.
Qed.

Lemma callbacks_last_write_status (d : string) (evs : list log_event) :
  last_write (fst (run_callbacks (path_join d "metrics.json") evs)) (path_join d "status.json")
  = None.
Proof.
  apply last_write_none.
  destruct (run_callbacks_writes (path_join d "metrics.json") evs) as [_ [_ Hf]].
  eapply Forall_impl; [exact Hf|]. intros w [-> _]. apply metrics_status_paths_differ.
Qed.

End TrainShape.

Module TrainExtras.
Import Train StringFacts TrainExtraProofs TrainShape.

(** [run_training] never writes a failure status: [status.json] only
    ever receives ["training"] and ["done"], the first status it receives
    is ["training"], and ["done"] is written only once the model, the
    dataset and the trainer were set up and [trainer.train()] finished its
    training loop. So whatever goes wrong before that, an observer of
    [status.json] is never told that the run failed. *)
Theorem run_training_status_file (d : string) (env : train_env) :
  let sp := path_join d "status.json" in
  let ws := fst (run_training d env) in
  Forall (fun st => st = "training" \/ st = "done") (status_writes ws sp) /\
  (forall st rest, status_writes ws sp = st :: rest -> st = "training") /\
  (In "done" (status_writes ws sp) ->
     (exists ds, training_prelude env = Ok ds) /\ exists loss, te_train env = Ok loss).
Proof.
  cbv zeta.
  destruct (run_training_cases d env) as
    [[e [Hmk ->]]|[[Hmk [e [Hp ->]]]|[[Hmk [Hp [e [Ht ->]]]]|[[Hmk [Hp [Ht [e [Hs ->]]]]]|
     [Hmk [ds [loss [Hp [Ht [Hs ->]]]]]]]]]]; cbn [fst snd];
    rewrite ?status_writes_app, ?status_writes_status, ?status_writes_metrics1,
      ?callbacks_status_writes; simpl; rewrite ?String.eqb_refl; simpl;
    (split; [repeat (apply List.Forall_cons; [auto|]); apply List.Forall_nil|split]);
    try (intros st rest [= <- _]; reflexivity); try (intros st rest [=]).
  - intros [].
  - intros [H|[]]; discriminate H.
  - intros [H|[]]; discriminate H.
  - intros _. split; assumption.
  - intros _. split; [exists ds|exists loss]; assumption.
Qed.

(** When [run_training] returns metrics [m], the last write to
    [status.json] is ["done"], the last write to [metrics.json] is [m]
    itself, [m] reports [progress = 1.0], and [m]'s [samples_used] is the
    number of lines of the dataset file. *)
Theorem run_training_success_files (d : string) (env : train_env) (m : metrics)
  (H : snd (run_training d env) = Ok m) :
  last_write (fst (run_training d env)) (path_join d "status.json") = Some (FStatus "done") /\
  last_write (fst (run_training d env)) (path_join d "metrics.json") = Some (FMetrics m) /\
  mget m "progress" = Some (MQ 1) /\
  exists lines, te_dataset_lines env = Ok lines /\
                mget m "samples_used" = Some (MZ (Z.of_nat (length lines))).
Proof.
  destruct (run_training_cases d env) as
    [[e [Hmk Hr]]|[[Hmk [e [Hp Hr]]]|[[Hmk [_ [e [Ht Hr]]]]|[[Hmk [_ [_ [e [Hs Hr]]]]]|
     [Hmk [ds [loss [Hp [Ht [Hs Hr]]]]]]]]]]; rewrite Hr in H |- *; simpl in H; try discriminate.
  injection H as <-. cbn [fst].
  assert (Hne : String.eqb (path_join d "status.json") (path_join d "metrics.json") = false)
    by (apply String.eqb_neq; intros E; apply (metrics_status_paths_differ d); symmetry; exact E).
  split; [|split; [|split; [reflexivity|]]].
  - rewrite !last_write_app, last_write_pair, String.eqb_refl. reflexivity.
  - rewrite !last_write_app, last_write_pair, Hne, String.eqb_refl. reflexivity.
  - unfold training_prelude in Hp.
    destruct (te_load_model env); [|discriminate]. simpl in Hp.
    destruct (te_dataset_lines env) as [lines|]; [|discriminate]. simpl in Hp.
    destruct (Dataset.load_dataset_from_jsonl lines) as [ds'|] eqn:Hl; [|discriminate].
    simpl in Hp. destruct (te_trainer_init env); [|discriminate]. simpl in Hp.
    injection Hp as <-. exists lines. split; [reflexivity|].
    rewrite (DatasetExtraProofs.load_dataset_length lines ds' Hl). reflexivity.
Qed.

(** When training completes but saving the adapter raises, [run_training]
    raises, yet [status.json] was already set to ["done"] by
    [on_train_end], and [metrics.json] still holds the last snapshot of
    the callback: the final metrics (with [progress = 1.0]) are never
    written. *)
Theorem run_training_save_failure_leaves_done (d : string) (env : train_env)
  (lines : list string) (loss : Q) (e : exn)
  (Hmk : te_makedirs env = Ok tt) (Hload : te_load_model env = Ok tt)
  (Hlines : te_dataset_lines env = Ok lines)
  (Hds : exists ts, Dataset.load_dataset_from_jsonl lines = Ok ts)
  (Hinit : te_trainer_init env = Ok tt) (Htrain : te_train env = Ok loss)
  (Hsave : te_save env = Raise e) :
  snd (run_training d env) = Raise e /\
  last_write (fst (run_training d env)) (path_join d "status.json") = Some (FStatus "done") /\
  last_write (fst (run_training d env)) (path_join d "metrics.json") =
    last_write (fst (run_callbacks (path_join d "metrics.json") (te_events env)))
               (path_join d "metrics.json").
Proof.
  destruct Hds as [ts Hts].
  assert (Hp : training_prelude env = Ok ts)
    by (unfold training_prelude; rewrite Hload, Hlines; simpl; rewrite Hts; simpl; rewrite Hinit; reflexivity).
  destruct (run_training_cases d env) as
    [[e' [Hmk' Hr]]|[[Hmk' [e' [Hp' Hr]]]|[[Hmk' [_ [e' [Ht Hr]]]]|[[Hmk' [_ [_ [e' [Hs Hr]]]]]|
     [Hmk' [ds [loss' [Hp' [Ht [Hs Hr]]]]]]]]]];
    try congruence.
  rewrite Hr. rewrite Hsave in Hs. injection Hs as <-. cbn [fst snd].
  split; [reflexivity|split].
  - rewrite !last_write_app, last_write_single. reflexivity.
  - rewrite !last_write_app.
    assert (Hne : String.eqb (path_join d "status.json") (path_join d "metrics.json") = false)
      by (apply String.eqb_neq; intros E; apply (metrics_status_paths_differ d); symmetry; exact E).
    assert (H0 : forall f, last_write [(path_join d "status.json", f)]
                                      (path_join d "metrics.json") = None)
      by (intros f; unfold last_write; cbn [fold_left fst snd]; rewrite Hne; reflexivity).
    rewrite !H0. destruct (last_write (fst (run_callbacks _ _)) _); reflexivity.
Qed.

End TrainExtras.

Module RegistryExtras.
Import Sidecar Invariants.

(** In every state the process can reach, at most one [_train] thread
    has not yet cleared [_current_run] in its [finally] clause; while one
    has not, [_current_run] names its run, whose record is still the
    initial [{"status": "training", "metrics": {}}] while [run_training]
    runs. When [_current_run] is [None], no [_train] thread has an update
    of [_runs] or a file write left to make; when it is set, it names a
    run present in [_runs]. Every record has status ["training"],
    ["done"] or ["failed"]. *)
Theorem reachable_single_worker (evs : list event) (s : State) (c : list string)
  (H : run_events init_state evs = Some (s, c)) :
  (length (threads s) <= 1)%nat /\
  (current_run s = None -> threads s = []) /\
  (forall r, current_run s = Some r -> is_Some (runs s !! r)) /\
  (forall t, In t (threads s) ->
     current_run s = Some (t_run_id t) /\
     forall ws out, t_phase t = Running ws out -> runs s !! t_run_id t = Some training_info) /\
  map_Forall (fun _ info => status info = "training" \/ status info = "done" \/
                            status info = "failed") (runs s).
Proof.
  destruct (RegistryProofs.reachable_Inv evs s c H) as [Hrec Hth].
  split; [|split; [|split; [|split]]].
  - destruct (threads s) as [|t [|t' l]]; simpl; [lia|lia|contradiction].
  - destruct (threads s) as [|t [|t' l]]; [reflexivity| |contradiction].
    destruct Hth as [-> _]. discriminate.
  - intros r Hr. destruct (threads s) as [|t [|t' l]]; [congruence| |contradiction].
    destruct Hth as [Hc Hp]. rewrite Hr in Hc. injection Hc as ->.
    destruct (t_phase t) as [ws out|]; [destruct Hp as [-> _]; eexists; reflexivity|exact Hp].
  - intros t Ht. destruct (threads s) as [|t0 [|t' l]]; [contradiction| |contradiction].
    destruct Ht as [<-|[]]. destruct Hth as [Hc Hp]. split; [exact Hc|].
    intros ws out Hph. rewrite Hph in Hp. exact (proj1 Hp).
  - intros k info Hk. specialize (Hrec k info Hk).
    destruct Hrec as [->|[[m [-> _]]|[e ->]]]; simpl; auto.
Qed.

(** Right after a run is admitted, a status query for its id answers
    [{"status": "training", "metrics": {}}], queries for other ids answer
    as before, and every further start-training request is refused with
    409 naming the new run, changing nothing. *)
Theorem admitted_run_status (s : State) (req : TrainRequest) (u : Z) (env : Train.train_env)
  (H : current_run s = None) :
  let s' := snd (start_training s req u env) in
  let rid := opt_str_or (run_id req) (gen_run_id u) in
  fst (get_status s' rid) = HOk training_info /\
  (forall k, k <> rid -> fst (get_status s' k) = fst (get_status s k)) /\
  (forall req2 u2 env2,
     start_training s' req2 u2 env2 = (HErr 409 ("Training already in progress: " ++ rid), s')).
Proof.
  cbv zeta. unfold start_training. rewrite H.
  destruct (Train.run_training (output_dir req) env) as [ws out]. cbn [snd].
  split; [|split].
  - unfold get_status. cbn [runs]. rewrite lookup_insert_eq. reflexivity.
  - intros k Hk. unfold get_status. cbn [runs].
    rewrite lookup_insert_ne by congruence.
    destruct (runs s !! k); reflexivity.
  - intros req2 u2 env2. reflexivity.
Qed.

End RegistryExtras.

Module ConvertExtras.
Import Convert ConvertProofs.

(** An output path with no ['/'] (a file name in the working directory)
    is never converted: [os.path.dirname] gives [""] and
    [os.makedirs("")] raises [FileNotFoundError], so whatever the machine,
    the handler starts no subprocess and either answers 500 or lets a
    [BaseException] outside [Exception] escape. *)
Theorem convert_output_without_directory_fails (env : convert_env) (req : ConvertRequest)
  (H : all_chars (fun c => negb (Ascii.eqb c "/"%char)) (output_path req) = true) :
  snd (convert_to_gguf env req) = [] /\
  match fst (convert_to_gguf env req) with
  | Ok (HErr 500 _) => True
  | Raise (BaseExc _ _) => True
  | _ => False
  end.
Proof.
  unfold convert_to_gguf.
  assert (Hd : dirname (output_path req) = "")
    by (unfold dirname; rewrite last_slash_no_slash by exact H; reflexivity).
  destruct (home env) as [h|e];
    [|destruct e; (split; [reflexivity|exact I])].
  destruct (find_first (path_exists env) (search_paths h)) as [[script|]|e];
    [|split; [reflexivity|exact I]|destruct e; (split; [reflexivity|exact I])].
  rewrite Hd. split; [reflexivity|exact I].
Qed.


End ConvertExtras.

Module MergeExtras.
Import Merge.

Ltac split_results :=
  repeat match goal with
         | |- context [match ?x with Ok _ => _ | Raise _ => _ end] =>
             let E := fresh "E" in destruct x eqn:E
         end.

Ltac merge_case :=
  split; [split|split; [|split]];
  [ intros Hk;
    first [ discriminate
          | match goal with e : exn |- _ => destruct e; discriminate end
          | repeat split; first [assumption | congruence] ]
  | intros (H1 & H2 & H3 & H4 & H5 & H6 & H7); first [reflexivity | congruence]
  | intros Hn; first [ exfalso; apply Hn; reflexivity
                     | repeat split; first [assumption | congruence] ]
  | repeat (apply List.Forall_cons; [auto|]); apply List.Forall_nil
  | intros e' He;
    first [ discriminate
          | match goal with
            | e : exn |- _ =>
                destruct e as [c m|c m]; [discriminate|injection He as <-; eauto]
            end ] ].

(** [merge_adapter] answers [{"status": "ok", output_path}] exactly when
    loading the base model, loading the adapter, merging, creating the
    (non-empty) output directory and saving the model and the tokenizer
    all succeed. Nothing is written unless the base model, the adapter and
    the merge succeeded and the output path is non-empty, and every write
    goes to the output path. An exception derived from [Exception] becomes
    a 500 answer; only a [BaseException] outside [Exception] escapes. *)
Theorem merge_adapter_outcomes (env : merge_env) (req : MergeRequest) :
  let p := output_path req in
  (snd (merge_adapter env req) = Ok (HOk ("ok", p)) <->
   load_base env (base_model_path req) = Ok tt /\ load_adapter env (adapter_dir req) = Ok tt /\
   merge_and_unload env = Ok tt /\ p <> "" /\ makedirs env p = Ok tt /\
   save_model env p = Ok tt /\ save_tokenizer env p = Ok tt) /\
  (fst (merge_adapter env req) <> [] ->
   load_base env (base_model_path req) = Ok tt /\ load_adapter env (adapter_dir req) = Ok tt /\
   merge_and_unload env = Ok tt /\ p <> "") /\
  Forall (fun w => w = WDir p \/ w = WModel p \/ w = WTokenizer p) (fst (merge_adapter env req)) /\
  (forall e, snd (merge_adapter env req) = Raise e -> exists cls msg, e = BaseExc cls msg).
Proof.
  cbv zeta. unfold merge_adapter, merge_body, py_makedirs.
  destruct (String.eqb_spec (output_path req) "") as [Hp|Hp];
    split_results; cbn [fst snd];
    repeat match goal with u : unit |- _ => destruct u end;
    merge_case.
Qed.

End MergeExtras.

Module ExtraScenarios.
Import Sidecar Train Examples Invariants.

Lemma line_text_ignores_surrounding_whitespace_witness :
  all_chars Dataset.py_isspace " " = true /\ all_chars Dataset.py_isspace crlf = true /\
  Dataset.line_text (" " ++ json_line_user_hi ++ crlf) = Dataset.line_text json_line_user_hi.
Proof.
  assert (H1 : all_chars Dataset.py_isspace " " = true) by reflexivity.
  assert (H2 : all_chars Dataset.py_isspace crlf = true) by reflexivity.
  split; [exact H1|split; [exact H2|]].
  exact (DatasetExtras.line_text_ignores_surrounding_whitespace " " json_line_user_hi crlf H1 H2).
Defined.

Lemma line_text_shape_errors_witness :
  let v := JObj [("messages", JArr [JObj [("role", JStr "user"); ("content", JStr "hi")]])] in
  json_loads (Dataset.py_strip json_line_user_hi) = Ok v /\
  ((forall kvs, v <> JObj kvs) ->
     exists msg, Dataset.line_text json_line_user_hi = Raise (Exc "TypeError" msg)) /\
  (forall kvs, v = JObj kvs -> Dataset.obj_lookup kvs "messages" = None ->
     Dataset.line_text json_line_user_hi = Raise (Exc "KeyError" "'messages'")) /\
  (forall kvs m, v = JObj kvs -> Dataset.obj_lookup kvs "messages" = Some m ->
     (m = JNull \/ (exists b, m = JBool b) \/ (exists n, m = JNum n)) ->
     exists msg, Dataset.line_text json_line_user_hi = Raise (Exc "TypeError" msg)) /\
  (forall kvs mk, v = JObj kvs -> Dataset.obj_lookup kvs "messages" = Some (JObj mk) ->
     (Dataset.obj_keys mk = [] -> Dataset.line_text json_line_user_hi = Ok "") /\
     (Dataset.obj_keys mk <> [] ->
        exists msg, Dataset.line_text json_line_user_hi = Raise (Exc "TypeError" msg))) /\
  (forall kvs s, v = JObj kvs -> Dataset.obj_lookup kvs "messages" = Some (JStr s) ->
     (s = "" -> Dataset.line_text json_line_user_hi = Ok "") /\
     (s <> "" -> exists msg, Dataset.line_text json_line_user_hi = Raise (Exc "TypeError" msg))).
Proof.
  cbv zeta.
  assert (Hl : json_loads (Dataset.py_strip json_line_user_hi) =
               Ok (JObj [("messages", JArr [JObj [("role", JStr "user");
                                                   ("content", JStr "hi")]])]))
    by (vm_compute; reflexivity).
  split; [exact Hl|].
  exact (DatasetExtras.line_text_shape_errors json_line_user_hi _ Hl).
Defined.

Lemma line_text_message_errors_witness :
  let m := JObj [("role", JStr "tool")] in
  let kvs := [("messages", JArr [m])] in
  json_loads (Dataset.py_strip json_line_tool_no_content) = Ok (JObj kvs) /\
  Dataset.obj_lookup kvs "messages" = Some (JArr (app [] (m :: []))) /\
  Forall readable_msg [] /\
  (forall mk, m = JObj mk -> Dataset.obj_lookup mk "role" = None ->
     Dataset.line_text json_line_tool_no_content = Raise (Exc "KeyError" "'role'")) /\
  (forall mk r, m = JObj mk -> Dataset.obj_lookup mk "role" = Some r ->
     Dataset.obj_lookup mk "content" = None ->
     Dataset.line_text json_line_tool_no_content = Raise (Exc "KeyError" "'content'")) /\
  ((forall mk, m <> JObj mk) ->
     exists msg, Dataset.line_text json_line_tool_no_content = Raise (Exc "TypeError" msg)).
Proof.
  cbv zeta.
  assert (Hl : json_loads (Dataset.py_strip json_line_tool_no_content) =
               Ok (JObj [("messages", JArr [JObj [("role", JStr "tool")]])]))
    by (vm_compute; reflexivity).
  assert (Hm : Dataset.obj_lookup [("messages", JArr [JObj [("role", JStr "tool")]])] "messages"
               = Some (JArr (app [] (JObj [("role", JStr "tool")] :: []))))
    by reflexivity.
  assert (Hpre : Forall readable_msg []) by constructor.
  split; [exact Hl|split; [exact Hm|split; [exact Hpre|]]].
  exact (DatasetExtras.line_text_message_errors json_line_tool_no_content _ [] _ [] Hl Hm Hpre).
Defined.

Lemma run_training_success_files_witness :
  snd (run_training "out" env_ok) = Ok metrics_ok /\
  last_write (fst (run_training "out" env_ok)) (path_join "out" "status.json")
    = Some (FStatus "done") /\
  last_write (fst (run_training "out" env_ok)) (path_join "out" "metrics.json")
    = Some (FMetrics metrics_ok) /\
  mget metrics_ok "progress" = Some (MQ 1) /\
  exists lines, te_dataset_lines env_ok = Ok lines /\
                mget metrics_ok "samples_used" = Some (MZ (Z.of_nat (length lines))).
Proof.
  assert (H : snd (run_training "out" env_ok) = Ok metrics_ok) by (vm_compute; reflexivity).
  split; [exact H|].
  exact (TrainExtras.run_training_success_files "out" env_ok metrics_ok H).
Defined.

Lemma run_training_save_failure_leaves_done_witness :
  Dataset.load_dataset_from_jsonl [json_line_user_hi] = Ok [Dataset.tagged "user" "hi"] /\
  snd (run_training "out" env_save_fails) =
    Raise (Exc "OSError" "[Errno 28] No space left on device") /\
  last_write (fst (run_training "out" env_save_fails)) (path_join "out" "status.json")
    = Some (FStatus "done") /\
  last_write (fst (run_training "out" env_save_fails)) (path_join "out" "metrics.json") =
    last_write (fst (run_callbacks (path_join "out" "metrics.json") (te_events env_save_fails)))
               (path_join "out" "metrics.json").
Proof.
  assert (Hds : Dataset.load_dataset_from_jsonl [json_line_user_hi]
                = Ok [Dataset.tagged "user" "hi"]) by (vm_compute; reflexivity).
  split; [exact Hds|].
  exact (TrainExtras.run_training_save_failure_leaves_done "out" env_save_fails
           [json_line_user_hi] (42 # 100) (Exc "OSError" "[Errno 28] No space left on device")
           eq_refl eq_refl eq_refl (ex_intro _ _ Hds) eq_refl eq_refl eq_refl).
Defined.

Lemma reachable_single_worker_witness :
  run_events init_state trace_progress = Some (st_after trace_progress, ["abc123"]) /\
  (length (threads (st_after trace_progress)) <= 1)%nat /\
  (current_run (st_after trace_progress) = None -> threads (st_after trace_progress) = []) /\
  (forall r, current_run (st_after trace_progress) = Some r ->
     is_Some (runs (st_after trace_progress) !! r)) /\
  (forall t, In t (threads (st_after trace_progress)) ->
     current_run (st_after trace_progress) = Some (t_run_id t) /\
     forall ws out, t_phase t = Running ws out ->
       runs (st_after trace_progress) !! t_run_id t = Some training_info) /\
  map_Forall (fun _ info => status info = "training" \/ status info = "done" \/
                            status info = "failed") (runs (st_after trace_progress)).
Proof.
  assert (H : run_events init_state trace_progress = Some (st_after trace_progress, ["abc123"]))
    by (vm_compute; reflexivity).
  split; [exact H|].
  exact (RegistryExtras.reachable_single_worker trace_progress _ _ H).
Defined.

Lemma admitted_run_status_witness :
  current_run init_state = None /\
  fst (get_status (snd (start_training init_state (req_with None) 7 env_ok)) (gen_run_id 7))
    = HOk training_info /\
  (forall k, k <> opt_str_or (run_id (req_with None)) (gen_run_id 7) ->
     fst (get_status (snd (start_training init_state (req_with None) 7 env_ok)) k)
     = fst (get_status init_state k)) /\
  (forall req2 u2 env2,
     start_training (snd (start_training init_state (req_with None) 7 env_ok)) req2 u2 env2 =
       (HErr 409 ("Training already in progress: " ++
                  opt_str_or (run_id (req_with None)) (gen_run_id 7)),
        snd (start_training init_state (req_with None) 7 env_ok))).
Proof.
  assert (H : current_run init_state = None) by reflexivity.
  split; [exact H|].
  exact (RegistryExtras.admitted_run_status init_state (req_with None) 7 env_ok H).
Defined.

Lemma convert_output_without_directory_fails_witness :
  all_chars (fun c => negb (Ascii.eqb c "/"%char)) (Convert.output_path conv_req_bare) = true /\
  snd (Convert.convert_to_gguf conv_env_ok conv_req_bare) = [] /\
  match fst (Convert.convert_to_gguf conv_env_ok conv_req_bare) with
  | Ok (HErr 500 _) => True
  | Raise (BaseExc _ _) => True
  | _ => False
  end.
Proof.
  assert (H : all_chars (fun c => negb (Ascii.eqb c "/"%char))
                (Convert.output_path conv_req_bare) = true) by reflexivity.
  split; [exact H|].
  exact (ConvertExtras.convert_output_without_directory_fails conv_env_ok conv_req_bare H).
Defined.


End ExtraScenarios.
